(** * Business Dashboard API: the analytics aggregation of [main.py]

    A shallow embedding of [analytics_overview] (main.py, lines 250-327) and
    of what it relies on: the [OrderItem] and [Order] documents of
    schemas.py, the four stages of the aggregation pipeline it sends to the
    document store ([$match], [$unwind], [$addFields], [$group]), and the
    Python builtins it calls on the returned rows ([sum], [round], [sorted],
    [dict.get], set comprehension, [datetime.fromisoformat]).

    Conventions of the model.
    - Amounts (Python [float], BSON double) are written as rationals [Q]
      and [round(x, 2)] as round-half-to-even; the rounding error of
      binary floating point addition and multiplication is not modelled.
      The general statements on amounts therefore say which terms are
      added and in which order ([running_sum], [group_sales]) and rest on
      no law of exact addition; those on signs and on the order of the
      entries use only that sums, products and roundings of terms that
      are not negative are not negative, and the order of the values
      the handler itself compares.
    - A Python [dict] is an association list in insertion order; assigning
      to a key that is present keeps its position.
    - A raised exception is the [Raise] branch of [result]; [try/except] is
      [try_except].

    The other handlers of main.py are embedded after the analytics:
    [serialize_doc], [test_database], [signup], [login] and the update
    and delete handlers of the three collections, with the [User],
    [Customer] and [Product] models of schemas.py.  What they take from
    outside the two files is a parameter of their definitions: [str] on an
    [_id], [ObjectId] on a string, the [EmailStr] check and
    [create_document] of the [database] module.  Strings are sequences of
    one-byte characters, so a length is a number of bytes. *)

From Stdlib Require Import ZArith QArith Qround Bool List Lia.
From Stdlib Require Import Ascii String.
From Stdlib Require Import Permutation Sorted.
Import ListNotations.

Open Scope string_scope.
Open Scope list_scope.
Open Scope Z_scope.

(* ------------------------------------------------------------------ *)
(** ** Exceptions *)

Inductive exn : Type :=
| ValueError          (* datetime.fromisoformat on a malformed string *)
| ZeroDivisionError   (* float division by zero *)
| PyMongoError.       (* the store cannot run the pipeline *)

Inductive result (A : Type) : Type :=
| Ok (a : A)
| Raise (e : exn).

Arguments Ok {A} a.
Arguments Raise {A} e.

Definition bind {A B : Type} (c : result A) (k : A -> result B) : result B :=
  match c with
  | Ok a => k a
  | Raise e => Raise e
  end.

Notation "x <- c ;; k" := (bind c (fun x => k))
  (at level 61, c at next level, right associativity).

(** [try: body except Exception: handler] *)
Definition try_except {A : Type} (body : result A) (handler : exn -> result A)
  : result A :=
  match body with
  | Ok a => Ok a
  | Raise e => handler e
  end.

(* ------------------------------------------------------------------ *)
(** ** Python builtins used by the handler *)

Module Py.

(** Truthiness of an [Optional[str]]: [None] and the empty string are
    falsy. *)
Definition truthy (s : option string) : bool :=
  match s with
  | None => false
  | Some EmptyString => false
  | Some _ => true
  end.

(** Round half to even, to an integer. *)
Definition round_half_even (x : Q) : Z :=
  let q := Qfloor x in
  match (2 * (x - inject_Z q) ?= 1)%Q with
  | Lt => q
  | Gt => q + 1
  | Eq => if Z.even q then q else q + 1
  end.

(** [round(x, 2)]; the value is kept in lowest terms. *)
Definition round2 (x : Q) : Q := Qred (round_half_even (x * 100) # 100).

(** [x / n] on floats, with the exception Python raises. *)
Definition truediv (x : Q) (n : Z) : result Q :=
  if n =? 0 then Raise ZeroDivisionError else Ok (x / inject_Z n)%Q.

(** [sum(xs)], starting from the integer 0. *)
Definition sum (xs : list Q) : Q := fold_left Qplus xs 0%Q.

(** [sorted]: a stable sort.  [lt a b] says that [a] must come strictly
    before [b].  The stable arrangement of a list is unique, so insertion
    from the right computes what CPython's merge sort returns. *)
Section Sorted.
Context {A : Type} (lt : A -> A -> bool).

Fixpoint insert (x : A) (l : list A) : list A :=
  match l with
  | [] => [x]
  | y :: l' => if lt y x then y :: insert x l' else x :: y :: l'
  end.

Fixpoint sorted (l : list A) : list A :=
  match l with
  | [] => []
  | x :: l' => insert x (sorted l')
  end.
End Sorted.

(** Dictionaries with string keys and float values. *)
Definition dict : Type := list (string * Q).

Fixpoint get (m : dict) (k : string) (default : Q) : Q :=
  match m with
  | [] => default
  | (k', v) :: m' => if String.eqb k k' then v else get m' k default
  end.

(** [m[k] = v] *)
Fixpoint set (m : dict) (k : string) (v : Q) : dict :=
  match m with
  | [] => [(k, v)]
  | (k', v') :: m' =>
      if String.eqb k k' then (k', v) :: m' else (k', v') :: set m' k v
  end.

Definition keys (m : dict) : list string := map fst m.
Definition values (m : dict) : list Q := map snd m.

(** Order of strings: by code point, a proper prefix first. *)
Definition str_lt (a b : string) : bool :=
  match String.compare a b with Lt => true | _ => false end.

(** Order of [(str, float)] tuples. *)
Definition item_lt (a b : string * Q) : bool :=
  match String.compare (fst a) (fst b) with
  | Lt => true
  | Gt => false
  | Eq => match (snd a ?= snd b)%Q with Lt => true | _ => false end
  end.

End Py.

(* ------------------------------------------------------------------ *)
(** ** Dates: [datetime], [fromisoformat], [$dateToString] *)

Record datetime : Type := mkDatetime {
  year : Z; month : Z; day : Z;
  hour : Z; minute : Z; second : Z; microsecond : Z
}.

Definition is_leap (y : Z) : bool :=
  ((y mod 4 =? 0) && negb (y mod 100 =? 0)) || (y mod 400 =? 0).

Definition days_in_month (y m : Z) : Z :=
  if m =? 2 then (if is_leap y then 29 else 28)
  else if (m =? 4) || (m =? 6) || (m =? 9) || (m =? 11) then 30
  else 31.

(** The values a [datetime] can hold (MINYEAR = 1, MAXYEAR = 9999). *)
Definition valid_datetime (d : datetime) : bool :=
  (1 <=? year d) && (year d <=? 9999) &&
  (1 <=? month d) && (month d <=? 12) &&
  (1 <=? day d) && (day d <=? days_in_month (year d) (month d)) &&
  (0 <=? hour d) && (hour d <=? 23) &&
  (0 <=? minute d) && (minute d <=? 59) &&
  (0 <=? second d) && (second d <=? 59) &&
  (0 <=? microsecond d) && (microsecond d <=? 999999).

Definition lex (c : comparison) (k : comparison) : comparison :=
  match c with Eq => k | _ => c end.

(** Comparison of two naive datetimes, field by field. *)
Definition datetime_compare (a b : datetime) : comparison :=
  lex (year a ?= year b)
  (lex (month a ?= month b)
  (lex (day a ?= day b)
  (lex (hour a ?= hour b)
  (lex (minute a ?= minute b)
  (lex (second a ?= second b)
       (microsecond a ?= microsecond b)))))).

Definition datetime_leb (a b : datetime) : bool :=
  match datetime_compare a b with Gt => false | _ => true end.

Definition digit_of (c : ascii) : option Z :=
  let n := Z.of_N (N_of_ascii c) in
  if (48 <=? n) && (n <=? 57) then Some (n - 48) else None.

Definition num2 (a b : ascii) : option Z :=
  match digit_of a, digit_of b with
  | Some x, Some y => Some (10 * x + y)
  | _, _ => None
  end.

Definition num4 (a b c d : ascii) : option Z :=
  match num2 a b, num2 c d with
  | Some x, Some y => Some (100 * x + y)
  | _, _ => None
  end.

Definition is_dash (c : ascii) : bool := Ascii.eqb c "-"%char.
Definition is_colon (c : ascii) : bool := Ascii.eqb c ":"%char.

(** The clock part of an ISO string, after the one-character separator:
    [HH:MM:SS], or nothing. *)
Definition parse_clock (s : string) : option (Z * Z * Z) :=
  match s with
  | EmptyString => Some (0, 0, 0)
  | String _ (String h1 (String h0 (String c1 (String m1 (String m0
      (String c2 (String s1 (String s0 EmptyString)))))))) =>
      if is_colon c1 && is_colon c2 then
        match num2 h1 h0, num2 m1 m0, num2 s1 s0 with
        | Some h, Some m, Some s => Some (h, m, s)
        | _, _, _ => None
        end
      else None
  | _ => None
  end.

(** [datetime.fromisoformat], on the two shapes the endpoint documents and
    [datetime.isoformat] writes: [YYYY-MM-DD] (midnight of that day) and
    [YYYY-MM-DD*HH:MM:SS].  Every other string, and every string whose
    fields are out of range, is a [ValueError]. *)
Definition fromisoformat (s : string) : result datetime :=
  match s with
  | String y3 (String y2 (String y1 (String y0 (String d1 (String m1
      (String m0 (String d2 (String e1 (String e0 rest))))))))) =>
      if is_dash d1 && is_dash d2 then
        match num4 y3 y2 y1 y0, num2 m1 m0, num2 e1 e0, parse_clock rest with
        | Some y, Some m, Some d, Some (h, mi, sec) =>
            let dt := mkDatetime y m d h mi sec 0 in
            if valid_datetime dt then Ok dt else Raise ValueError
        | _, _, _, _ => Raise ValueError
        end
      else Raise ValueError
  | _ => Raise ValueError
  end.

Definition digit_char (n : Z) : ascii := ascii_of_N (Z.to_N (48 + n mod 10)).

Definition pad2 (n : Z) : string :=
  String (digit_char (n / 10)) (String (digit_char n) EmptyString).

Definition pad4 (n : Z) : string :=
  String (digit_char (n / 1000)) (String (digit_char (n / 100))
    (String (digit_char (n / 10)) (String (digit_char n) EmptyString))).

(** [{"$dateToString": {"format": "%Y-%m-%d", "date": d}}] *)
Definition dateToString (d : datetime) : string :=
  (pad4 (year d) ++ "-" ++ pad2 (month d) ++ "-" ++ pad2 (day d))%string.

(* ------------------------------------------------------------------ *)
(** ** Documents of the [order] collection (schemas.py) *)

(** A line item.  [OrderItem] declares [product_id], [quantity] and
    [price]; the pipeline also reads [items.category], which a stored
    document may or may not carry. *)
Record OrderItem : Type := mkItem {
  product_id : string;
  quantity : Z;
  price : Q;
  category : option string
}.

Record Order : Type := mkOrder {
  oid : string;               (* [_id], as [str] prints it *)
  customer_id : string;
  items : list OrderItem;
  status : string;
  order_date : datetime
}.

(** What [OrderItem] and [Order] validate. *)
Definition valid_item (it : OrderItem) : bool :=
  (1 <=? quantity it) && Qle_bool 0 (price it).

Definition valid_order (o : Order) : bool :=
  forallb valid_item (items o) && valid_datetime (order_date o).

(** An item as [OrderItem] serialises it: without a category. *)
Definition schema_item (it : OrderItem) : Prop := category it = None.

(* ------------------------------------------------------------------ *)
(** ** The aggregation pipeline, as the document store runs it *)

Module Mongo.

(** The [filt] dictionary: [{"order_date": {"$gte": .., "$lte": ..},
    "items.category": ..}], each part optional. *)
Record Filter : Type := mkFilter {
  f_gte : option datetime;
  f_lte : option datetime;
  f_category : option string
}.

Definition item_has_category (c : string) (it : OrderItem) : bool :=
  match category it with
  | Some c' => String.eqb c c'
  | None => false
  end.

(** [{"$match": filt}].  A condition on the dotted path [items.category]
    holds of a document when some element of its [items] array has that
    value. *)
Definition matches (f : Filter) (o : Order) : bool :=
  (match f_gte f with
   | Some lo => datetime_leb lo (order_date o)
   | None => true
   end) &&
  (match f_lte f with
   | Some hi => datetime_leb (order_date o) hi
   | None => true
   end) &&
  (match f_category f with
   | Some c => existsb (item_has_category c) (items o)
   | None => true
   end).

Definition stage_match (f : Filter) (orders : list Order) : list Order :=
  filter (matches f) orders.

(** [{"$unwind": "$items"}]: one document per element of [items]; an
    order whose array is empty yields none. *)
Definition stage_unwind (orders : list Order) : list (Order * OrderItem) :=
  flat_map (fun o => map (fun it => (o, it)) (items o)) orders.

(** [{"$addFields": {"line_total": {"$multiply": [quantity, price]}}}] *)
Definition line_total (it : OrderItem) : Q :=
  (inject_Z (quantity it) * price it)%Q.

(** A document the [$group] stage returns. *)
Record Row : Type := mkRow {
  r_day : string;
  r_category : option string;
  r_sales : Q;
  r_orders : list string
}.

Definition opt_eqb (a b : option string) : bool :=
  match a, b with
  | Some x, Some y => String.eqb x y
  | None, None => true
  | _, _ => false
  end.

Definition same_group (d : string) (c : option string) (r : Row) : bool :=
  String.eqb d (r_day r) && opt_eqb c (r_category r).

(** [$addToSet] *)
Definition add_to_set (x : string) (s : list string) : list string :=
  if existsb (String.eqb x) s then s else s ++ [x].

(** One unwound document entering [$group]: [$sum] adds its line total
    to the accumulator of its group, [$addToSet] its [_id]. *)
Fixpoint group_add (d : string) (c : option string) (t : Q) (i : string)
                   (rows : list Row) : list Row :=
  match rows with
  | [] => [mkRow d c (0 + t) [i]]
  | r :: rows' =>
      if same_group d c r
      then mkRow (r_day r) (r_category r) (r_sales r + t)
                 (add_to_set i (r_orders r)) :: rows'
      else r :: group_add d c t i rows'
  end.

(** [$group] by [(day, category)].  Groups come out in the order of
    their first document. *)
Definition stage_group (docs : list (Order * OrderItem)) : list Row :=
  fold_left
    (fun rows d =>
       group_add (dateToString (order_date (fst d))) (category (snd d))
                 (line_total (snd d)) (oid (fst d)) rows)
    docs [].

Definition pipeline (f : Filter) (orders : list Order) : list Row :=
  stage_group (stage_unwind (stage_match f orders)).

(** The handle [db] of the [database] module: a store holding the
    [order] collection, or one that fails when asked to aggregate. *)
Inductive Database : Type :=
| Connected (orders : list Order)
| Unreachable.

(** [list(db["order"].aggregate(pipeline))] *)
Definition aggregate (h : Database) (f : Filter) : result (list Row) :=
  match h with
  | Connected orders => Ok (pipeline f orders)
  | Unreachable => Raise PyMongoError
  end.

End Mongo.

Import Mongo.

(* ------------------------------------------------------------------ *)
(** ** The handler *)

Record CategorySales : Type := mkCategorySales {
  cs_category : string;
  cs_sales : Q
}.

Record TrendPoint : Type := mkTrendPoint {
  tp_date : string;
  tp_sales : Q
}.

Record AnalyticsResponse : Type := mkResponse {
  total_sales : Q;
  orders_count : Z;
  avg_order_value : Q;
  top_categories : list CategorySales;
  trend : list TrendPoint
}.

Definition opt_get (s : option string) : string :=
  match s with Some x => x | None => EmptyString end.

(** Lines 258-267: the filter. *)
Definition build_filter (start_date end_date category : option string)
  : result Filter :=
  rng <- (if Py.truthy start_date || Py.truthy end_date then
            lo <- (if Py.truthy start_date
                   then d <- fromisoformat (opt_get start_date) ;; Ok (Some d)
                   else Ok None) ;;
            hi <- (if Py.truthy end_date
                   then d <- fromisoformat (opt_get end_date) ;; Ok (Some d)
                   else Ok None) ;;
            Ok (lo, hi)
          else Ok (None, None)) ;;
  Ok (mkFilter (fst rng) (snd rng)
               (if Py.truthy category then category else None)).

(** Line 285. *)
Definition rows_total (rows : list Row) : Q := Py.sum (map r_sales rows).

(** Line 286: the set of the order ids of all rows, and its size. *)
Definition rows_order_ids (rows : list Row) : list string :=
  nodup string_dec (flat_map r_orders rows).

Definition rows_orders_count (rows : list Row) : Z :=
  Z.of_nat (List.length (rows_order_ids rows)).

(** Line 292: [r["_id"].get("category") or "Unknown"]. *)
Definition row_cat (r : Row) : string :=
  match r_category r with
  | Some EmptyString => "Unknown"
  | Some c => c
  | None => "Unknown"
  end.

(** Lines 289-295: the two running maps. *)
Definition cat_map (rows : list Row) : Py.dict :=
  fold_left (fun m r => Py.set m (row_cat r) (Py.get m (row_cat r) 0 + r_sales r)%Q)
            rows [].

Definition trend_map (rows : list Row) : Py.dict :=
  fold_left (fun m r => Py.set m (r_day r) (Py.get m (r_day r) 0 + r_sales r)%Q)
            rows [].

Definition float_lt (x y : Q) : bool :=
  match (x ?= y)%Q with Lt => true | _ => false end.

(** Lines 296-298, before the slice: every category, rounded, sorted by
    sales with [reverse=True]. *)
Definition category_breakdown (rows : list Row) : list CategorySales :=
  Py.sorted (fun a b => float_lt (cs_sales b) (cs_sales a))
    (map (fun kv => mkCategorySales (fst kv) (Py.round2 (snd kv)))
         (cat_map rows)).

(** Lines 299-301. *)
Definition trend_of (rows : list Row) : list TrendPoint :=
  map (fun ds => mkTrendPoint (fst ds) (Py.round2 (snd ds)))
      (Py.sorted Py.item_lt (trend_map rows)).

(** Lines 285-308: the summary of the rows. *)
Definition summarize (rows : list Row) : result AnalyticsResponse :=
  let total := rows_total rows in
  let count := rows_orders_count rows in
  avg <- (if negb (count =? 0)
          then q <- Py.truediv total count ;; Ok (Py.round2 q)
          else Ok 0%Q) ;;
  Ok (mkResponse (Py.round2 total) count avg
                 (firstn 5 (category_breakdown rows))
                 (trend_of rows)).

(** Lines 257-308: the body of the [try]; [Ok None] when it runs to its
    end without returning, which is the case [db is None]. *)
Definition overview_try (db : option Database)
    (start_date end_date category : option string)
  : result (option AnalyticsResponse) :=
  filt <- build_filter start_date end_date category ;;
  match db with
  | Some h =>
      rows <- aggregate h filt ;;
      resp <- summarize rows ;;
      Ok (Some resp)
  | None => Ok None
  end.

(** Lines 312-327. *)
Definition dummy_trend : list TrendPoint :=
  [ mkTrendPoint "2025-11-01" 1200;
    mkTrendPoint "2025-11-02" 1800;
    mkTrendPoint "2025-11-03" 900;
    mkTrendPoint "2025-11-04" 1500;
    mkTrendPoint "2025-11-05" 2100 ].

Definition fallback : result AnalyticsResponse :=
  let total := Py.sum (map tp_sales dummy_trend) in
  avg <- Py.truediv total 42 ;;
  Ok (mkResponse total 42 (Py.round2 avg)
        [ mkCategorySales "subscriptions" 3200;
          mkCategorySales "hardware" 2300 ]
        dummy_trend).

(** [analytics_overview]: the [try] body, [except Exception: pass], then
    the fallback. *)
Definition analytics_overview (db : option Database)
    (start_date end_date category : option string)
  : result AnalyticsResponse :=
  r <- try_except (overview_try db start_date end_date category)
                  (fun _ => Ok None) ;;
  match r with
  | Some resp => Ok resp
  | None => fallback
  end.

(** Midnight of a day. *)
Definition at_day (y m d : Z) : datetime := mkDatetime y m d 0 0 0 0.

(** The orders of the scenario of the specification. *)
Definition scenario_orders : list Order :=
  [ mkOrder "o1" "c1" [mkItem "p1" 2 50 (Some "A")] "paid" (at_day 2025 11 1);
    mkOrder "o2" "c1" [mkItem "p2" 1 30 (Some "B")] "paid" (at_day 2025 11 1);
    mkOrder "o3" "c2" [mkItem "p1" 3 10 (Some "A")] "paid" (at_day 2025 11 2) ].

(** ** Definitions the statements use *)

(** [a] may stand before [b] in a sorted list when [b] need not come
    strictly first. *)
Definition may_precede {A : Type} (lt : A -> A -> bool) (a b : A) : Prop :=
  lt b a = false.

(** The sum of a list, from the right. *)
Fixpoint qsum (xs : list Q) : Q :=
  match xs with
  | [] => 0
  | x :: xs' => x + qsum xs'
  end%Q.

(** The loop of lines 291-295, for one of its two maps: [key] is the
    category or the day of a row. *)
Definition accumulate (key : Row -> string) (rows : list Row) (m : Py.dict)
  : Py.dict :=
  fold_left (fun m r => Py.set m (key r) (Py.get m (key r) 0 + r_sales r)%Q)
            rows m.

(** The entries of the category map, rounded, in the order the map
    iterates: the list that line 296 sorts. *)
Definition category_entries (rows : list Row) : list CategorySales :=
  map (fun kv => mkCategorySales (fst kv) (Py.round2 (snd kv))) (cat_map rows).

(** The entries of the day map, rounded. *)
Definition trend_entries (rows : list Row) : list TrendPoint :=
  map (fun ds => mkTrendPoint (fst ds) (Py.round2 (snd ds))) (trend_map rows).

(** The filter of a request without dates and without category. *)
Definition no_filter : Filter := mkFilter None None None.

Definition tiny_item (c : string) : OrderItem := mkItem "p" 1 (4 # 1000) (Some c).

(** Five orders of 0.004 each, on five days and in five categories. *)
Definition rounding_orders : list Order :=
  [ mkOrder "o1" "c" [tiny_item "A"] "paid" (at_day 2025 11 1);
    mkOrder "o2" "c" [tiny_item "B"] "paid" (at_day 2025 11 2);
    mkOrder "o3" "c" [tiny_item "C"] "paid" (at_day 2025 11 3);
    mkOrder "o4" "c" [tiny_item "D"] "paid" (at_day 2025 11 4);
    mkOrder "o5" "c" [tiny_item "E"] "paid" (at_day 2025 11 5) ].

(** [key=lambda x: x["sales"], reverse=True] *)
Definition by_sales_desc (a b : CategorySales) : bool :=
  float_lt (cs_sales b) (cs_sales a).

(** The entries whose sales equal [s]. *)
Definition tied (s : Q) (e : CategorySales) : bool := Qeq_bool (cs_sales e) s.

Definition one_item_order (i c : string) (p : Q) : Order :=
  mkOrder i "c" [mkItem "p" 1 p (Some c)] "paid" (at_day 2025 11 1).

(** Seven categories, three of them tied at the fifth place. *)
Definition seven_categories : list Order :=
  [ one_item_order "o1" "a" 10; one_item_order "o2" "b" 70;
    one_item_order "o3" "c" 10; one_item_order "o4" "d" 50;
    one_item_order "o5" "e" 10; one_item_order "o6" "f" 60;
    one_item_order "o7" "g" 40 ].

(** The day, the category and the line total of an unwound document. *)
Definition doc_day (d : Order * OrderItem) : string :=
  dateToString (order_date (fst d)).

Definition doc_cat (d : Order * OrderItem) : option string := category (snd d).

Definition doc_total (d : Order * OrderItem) : Q := line_total (snd d).

(** [$group] entered with some groups already formed. *)
Definition group_from (docs : list (Order * OrderItem)) (rows : list Row)
  : list Row :=
  fold_left
    (fun rows d => group_add (doc_day d) (doc_cat d) (doc_total d)
                             (oid (fst d)) rows)
    docs rows.

(** The category name under which line 292 files a group key. *)
Definition cat_name (c : option string) : string :=
  match c with
  | Some EmptyString => "Unknown"
  | Some c => c
  | None => "Unknown"
  end.

(** One order with a line of category A (2 x 50) and a line of category B
    (1 x 30). *)
Definition mixed_order : Order :=
  mkOrder "o1" "c1"
          [mkItem "p1" 2 50 (Some "A"); mkItem "p2" 1 30 (Some "B")]
          "paid" (at_day 2025 11 1).

(** The summary of no row at all. *)
Definition empty_summary : AnalyticsResponse := mkResponse 0 0 0 [] [].

(** Three orders written through the [Order] schema: no item has a
    category. *)
Definition schema_orders : list Order :=
  [ mkOrder "o1" "c1" [mkItem "p1" 2 50 None] "paid" (at_day 2025 11 1);
    mkOrder "o2" "c1" [mkItem "p2" 1 30 None; mkItem "p3" 1 20 None]
            "paid" (at_day 2025 11 1);
    mkOrder "o3" "c2" [mkItem "p1" 3 10 None] "paid" (at_day 2025 11 2) ].

(** Chronological order of two calendar days. *)
Definition date_compare (a b : datetime) : comparison :=
  lex (year a ?= year b) (lex (month a ?= month b) (day a ?= day b)).

(** Order of the items of a dictionary by key alone. *)
Definition by_key (a b : string * Q) : bool := Py.str_lt (fst a) (fst b).

(** Orders entered out of order, two of them on one day. *)
Definition shuffled_orders : list Order :=
  [ one_item_order "o1" "a" 10;
    mkOrder "o2" "c" [mkItem "p" 1 (5 # 2) (Some "a")] "paid" (at_day 2024 12 31);
    mkOrder "o3" "c" [mkItem "p" 2 7 (Some "b")] "paid" (at_day 2025 2 3);
    mkOrder "o4" "c" [mkItem "p" 1 (1 # 8) (Some "b")] "paid" (at_day 2024 12 31) ].

(** An order placed at ten in the morning of 2 November 2025. *)
Definition morning_order : Order :=
  mkOrder "o1" "c1" [mkItem "p1" 1 100 (Some "A")] "paid"
          (mkDatetime 2025 11 2 10 0 0 0).

(** The value of the fallback of lines 312-327. *)
Definition placeholder : AnalyticsResponse :=
  mkResponse 7500 42 (17857 # 100)
             [ mkCategorySales "subscriptions" 3200;
               mkCategorySales "hardware" 2300 ]
             dummy_trend.

(** The line items the pipeline sums: those of the orders that pass
    [$match], each with its order. *)
Definition selected_lines (f : Filter) (orders : list Order)
  : list (Order * OrderItem) :=
  stage_unwind (stage_match f orders).

(** The orders that pass [$match] and have a line item. *)
Definition has_items (o : Order) : bool :=
  match items o with [] => false | _ :: _ => true end.

Definition counted_orders (f : Filter) (orders : list Order) : list Order :=
  filter has_items (stage_match f orders).

(* ------------------------------------------------------------------ *)
(** ** Documents, and [serialize_doc] (main.py, lines 36-46) *)

(** The values a stored document holds. *)
#[warnings="-register-all"]
Inductive value : Type :=
| VNone
| VBool (b : bool)
| VInt (n : Z)
| VFloat (x : Q)
| VStr (s : string)
| VObjectId (h : string)
| VDatetime (t : datetime)
| VList (l : list value)
| VDict (d : list (string * value)).

(** A document: a [dict] from field names to values, in insertion
    order. *)
Definition document : Type := list (string * value).

(** [d.get(k)] *)
Fixpoint doc_get (d : document) (k : string) : option value :=
  match d with
  | [] => None
  | (k', v) :: d' => if String.eqb k k' then Some v else doc_get d' k
  end.

(** [d[k] = v] *)
Fixpoint doc_set (d : document) (k : string) (v : value) : document :=
  match d with
  | [] => [(k, v)]
  | (k', v') :: d' =>
      if String.eqb k k' then (k', v) :: d' else (k', v') :: doc_set d' k v
  end.

(** What [d.pop(k)] leaves of [d]. *)
Definition doc_pop (d : document) (k : string) : document :=
  filter (fun kv => negb (String.eqb k (fst kv))) d.

Definition doc_keys (d : document) : list string := map fst d.

Definition pad6 (n : Z) : string :=
  String (digit_char (n / 100000)) (String (digit_char (n / 10000)) (pad4 n)).

(** [datetime.isoformat()]: [YYYY-MM-DDTHH:MM:SS], followed by [.ffffff]
    when the microseconds are not zero. *)
Definition isoformat (t : datetime) : string :=
  (dateToString t ++ "T" ++ pad2 (hour t) ++ ":" ++ pad2 (minute t) ++ ":"
   ++ pad2 (second t)
   ++ (if Z.eqb (microsecond t) 0 then "" else "." ++ pad6 (microsecond t)))%string.

(** Lines 43-45, on one value. *)
Definition json_value (v : value) : value :=
  match v with
  | VDatetime t => VStr (isoformat t)
  | _ => v
  end.

Definition is_datetime (v : value) : bool :=
  match v with VDatetime _ => true | _ => false end.

(** [serialize_doc].  [py_str] is [str] on the values an [_id] may be;
    for an [ObjectId] it is its 24 hexadecimal digits. *)
Definition serialize_doc (py_str : value -> string) (doc : document)
  : document :=
  match doc with
  | [] => doc
  | _ :: _ =>
      let d := match doc_get doc "_id" with
               | Some i => doc_set (doc_pop doc "_id") "id" (VStr (py_str i))
               | None => doc
               end in
      map (fun kv => (fst kv, json_value (snd kv))) d
  end.

(** [str] on the ids the store makes and on strings. *)
Definition str_of_id (v : value) : string :=
  match v with
  | VObjectId h => h
  | VStr s => s
  | _ => ""
  end.

(* ------------------------------------------------------------------ *)
(** ** The store behind the handlers other than the analytics *)

Inductive error : Type :=
| KeyError            (* [d[k]] on a missing key *)
| InvalidId           (* [ObjectId(s)] on a malformed string *)
| StoreError          (* the store fails *)
| ValidationError.    (* a pydantic model rejects its fields *)

Inductive attempt (A : Type) : Type :=
| Done (a : A)
| Failed (e : error).

Arguments Done {A} a.
Arguments Failed {A} e.

Inductive collection : Type := CUser | CCustomer | CProduct | COrder.

Record Store : Type := mkStore {
  users : list document;
  customers : list document;
  products : list document;
  order_docs : list document
}.

(** [db[name]] *)
Definition coll_get (c : collection) (s : Store) : list document :=
  match c with
  | CUser => users s
  | CCustomer => customers s
  | CProduct => products s
  | COrder => order_docs s
  end.

Definition coll_put (c : collection) (docs : list document) (s : Store) : Store :=
  match c with
  | CUser => mkStore docs (customers s) (products s) (order_docs s)
  | CCustomer => mkStore (users s) docs (products s) (order_docs s)
  | CProduct => mkStore (users s) (customers s) docs (order_docs s)
  | COrder => mkStore (users s) (customers s) (products s) docs
  end.

(** The handle [db]: [None], or a link to a store that answers ([Up]) or
    fails ([Down]). *)
Inductive Link : Type :=
| Up (s : Store)
| Down.

(** A condition [{k: s}] with [s] a string: the field is that string, or
    an array holding it. *)
Definition is_str (s : string) (v : value) : bool :=
  match v with VStr s' => String.eqb s s' | _ => false end.

Definition field_is_str (k s : string) (d : document) : bool :=
  match doc_get d k with
  | Some (VList l) => existsb (is_str s) l
  | Some v => is_str s v
  | None => false
  end.

(** The condition [{"_id": ObjectId(h)}]. *)
Definition has_id (h : string) (d : document) : bool :=
  match doc_get d "_id" with
  | Some (VObjectId h') => String.eqb h h'
  | _ => false
  end.

(** [find_one]: the first document that satisfies the condition. *)
Definition find_one (p : document -> bool) (docs : list document)
  : option document :=
  find p docs.

(** [update_one] with [{"$set": fields}]: the first document that
    satisfies the condition gets the fields. *)
Definition set_fields (fields : document) (d : document) : document :=
  fold_left (fun d kv => doc_set d (fst kv) (snd kv)) fields d.

Fixpoint update_one (p : document -> bool) (fields : document)
         (docs : list document) : list document :=
  match docs with
  | [] => []
  | d :: docs' =>
      if p d then set_fields fields d :: docs' else d :: update_one p fields docs'
  end.

(** [delete_one]: the first document that satisfies the condition goes. *)
Fixpoint delete_one (p : document -> bool) (docs : list document)
  : list document :=
  match docs with
  | [] => []
  | d :: docs' => if p d then docs' else d :: delete_one p docs'
  end.

(* ------------------------------------------------------------------ *)
(** ** [signup] and [login] (main.py, lines 78-111) *)

Record AuthRequest : Type := mkAuthRequest {
  req_name : option string;
  req_email : string;
  req_password : string
}.

Record AuthUser : Type := mkAuthUser {
  au_id : string;
  au_name : value;
  au_email : string
}.

Record AuthResponse : Type := mkAuthResponse {
  token : string;
  user : AuthUser
}.

(** [s.split("@")[0]] *)
Fixpoint before_at (s : string) : string :=
  match s with
  | EmptyString => EmptyString
  | String c s' => if Ascii.eqb c "@" then EmptyString else String c (before_at s')
  end.

(** The answer without a store. *)
Definition demo_auth (name : value) (email : string) : AuthResponse :=
  mkAuthResponse "demo-token" (mkAuthUser "demo-user" name email).

(** Lines 101-108: the body of the [try]; [Done None] when it runs to
    its end without returning. *)
Definition login_try (py_str : value -> string) (db : option Link)
           (payload : AuthRequest) : attempt (option AuthResponse) :=
  match db with
  | None => Done None
  | Some Down => Failed StoreError
  | Some (Up s) =>
      match find_one (field_is_str "email" (req_email payload)) (users s) with
      | Some ((_ :: _) as doc) =>
          match doc_get doc "_id" with
          | Some i =>
              let uid := py_str i in
              let name := match doc_get doc "name" with
                          | Some n => n
                          | None => VStr (req_email payload)
                          end in
              Done (Some (mkAuthResponse uid
                            (mkAuthUser uid name (req_email payload))))
          | None => Failed KeyError
          end
      | _ => Done None
      end
  end.

Definition login (py_str : value -> string) (db : option Link)
           (payload : AuthRequest) : attempt AuthResponse :=
  match login_try py_str db payload with
  | Done (Some r) => Done r
  | _ =>
      Done (demo_auth (VStr (before_at (req_email payload))) (req_email payload))
  end.

(** The [User] model of schemas.py. *)
Record User : Type := mkUser {
  user_name : string;
  user_email : string;
  user_password : string;
  user_role : string;
  user_is_active : bool
}.

(** [User(name=.., email=.., password=..)].  [validate_email] is the
    [EmailStr] check, which returns the address as it is kept. *)
Definition make_user (validate_email : string -> option string)
           (name email password : string) : attempt User :=
  match validate_email email with
  | Some e =>
      if (String.length password <? 4)%nat then Failed ValidationError
      else Done (mkUser name e password "user" true)
  | None => Failed ValidationError
  end.

(** [signup].  [create_document] stands for [create_document("user", .)]
    of the [database] module: it returns the id of the new document or
    raises. *)
Definition signup (validate_email : string -> option string)
           (create_document : User -> attempt string)
           (payload : AuthRequest) : attempt AuthResponse :=
  let name := if Py.truthy (req_name payload) then opt_get (req_name payload)
              else before_at (req_email payload) in
  match make_user validate_email name (req_email payload)
                  (req_password payload) with
  | Failed e => Failed e
  | Done u =>
      match create_document u with
      | Done user_id =>
          Done (mkAuthResponse user_id
                  (mkAuthUser user_id (VStr (user_name u)) (user_email u)))
      | Failed _ => Done (demo_auth (VStr (user_name u)) (user_email u))
      end
  end.

(* ------------------------------------------------------------------ *)
(** ** Updating and deleting by id (main.py, lines 132-150, 176-194,
       222-240) *)

(** What a handler gives back: a body, or the [HTTPException] it
    raises. *)
Inductive http (A : Type) : Type :=
| Body (a : A)
| HTTPException (status : Z) (cause : error).

Arguments Body {A} a.
Arguments HTTPException {A} status cause.

Record Customer : Type := mkCustomer {
  cust_name : string;
  cust_email : string;
  cust_phone : option string;
  cust_company : option string;
  cust_address : option string;
  cust_status : string
}.

Record Product : Type := mkProduct {
  prod_title : string;
  prod_description : option string;
  prod_price : Q;
  prod_category : string;
  prod_in_stock : bool
}.

Definition opt_str (s : option string) : value :=
  match s with Some x => VStr x | None => VNone end.

(** [payload.model_dump()] *)
Definition customer_dump (c : Customer) : document :=
  [ ("name", VStr (cust_name c)); ("email", VStr (cust_email c));
    ("phone", opt_str (cust_phone c)); ("company", opt_str (cust_company c));
    ("address", opt_str (cust_address c)); ("status", VStr (cust_status c)) ].

Definition product_dump (p : Product) : document :=
  [ ("title", VStr (prod_title p)); ("description", opt_str (prod_description p));
    ("price", VFloat (prod_price p)); ("category", VStr (prod_category p));
    ("in_stock", VBool (prod_in_stock p)) ].

(** An [OrderItem] has no category: the field is not written. *)
Definition item_dump (it : OrderItem) : value :=
  VDict [ ("product_id", VStr (product_id it)); ("quantity", VInt (quantity it));
          ("price", VFloat (price it)) ].

Definition order_dump (o : Order) : document :=
  [ ("customer_id", VStr (customer_id o)); ("items", VList (map item_dump (items o)));
    ("status", VStr (status o)); ("order_date", VDatetime (order_date o)) ].

(** The body of [update_customer], [update_product] and [update_order]:
    the handle is looked at first, then the id is parsed, then the store
    is asked.  [object_id] is [ObjectId] on a string: the id, or nothing
    when the string is malformed.  The store after the call comes with
    the answer. *)
Definition update_by_id (object_id : string -> option string) (c : collection)
           (db : option Link) (id : string) (fields : document)
  : http bool * option Link :=
  match db with
  | None => (Body false, db)
  | Some l =>
      match object_id id with
      | None => (HTTPException 400 InvalidId, db)
      | Some h =>
          match l with
          | Down => (HTTPException 400 StoreError, db)
          | Up s =>
              (Body true,
               Some (Up (coll_put c (update_one (has_id h) fields (coll_get c s)) s)))
          end
      end
  end.

Definition delete_by_id (object_id : string -> option string) (c : collection)
           (db : option Link) (id : string)
  : http bool * option Link :=
  match db with
  | None => (Body false, db)
  | Some l =>
      match object_id id with
      | None => (HTTPException 400 InvalidId, db)
      | Some h =>
          match l with
          | Down => (HTTPException 400 StoreError, db)
          | Up s =>
              (Body true,
               Some (Up (coll_put c (delete_one (has_id h) (coll_get c s)) s)))
          end
      end
  end.

Definition update_customer object_id db id (payload : Customer) :=
  update_by_id object_id CCustomer db id (customer_dump payload).

Definition delete_customer object_id db id :=
  delete_by_id object_id CCustomer db id.

Definition update_product object_id db id (payload : Product) :=
  update_by_id object_id CProduct db id (product_dump payload).

Definition delete_product object_id db id :=
  delete_by_id object_id CProduct db id.

Definition update_order object_id db id (payload : Order) :=
  update_by_id object_id COrder db id (order_dump payload).

Definition delete_order object_id db id :=
  delete_by_id object_id COrder db id.

(** A user document and a store that holds it. *)
Definition alice_doc : document :=
  [ ("_id", VObjectId "65f0c0ffee0123456789abcd"); ("name", VStr "Alice");
    ("email", VStr "alice@example.com"); ("password", VStr "secret") ].

Definition alice_store : Store := mkStore [alice_doc] [] [] [].

(** Two customer documents, and [ObjectId] on strings of 24 characters. *)
Definition ann_doc : document :=
  [ ("_id", VObjectId "aaaaaaaaaaaaaaaaaaaaaaaa"); ("name", VStr "Ann");
    ("email", VStr "ann@example.com"); ("tier", VInt 2) ].

Definition ben_doc : document :=
  [ ("_id", VObjectId "bbbbbbbbbbbbbbbbbbbbbbbb"); ("name", VStr "Ben") ].

Definition two_customers : Store := mkStore [] [ann_doc; ben_doc] [] [].

Definition id24 (s : string) : option string :=
  if (String.length s =? 24)%nat then Some s else None.

Definition ann_payload : Customer :=
  mkCustomer "Ann B." "ann@example.org" None (Some "ACME") None "inactive".

(* ------------------------------------------------------------------ *)
(** ** [test_database] (main.py, lines 52-75) *)

Record TestResponse : Type := mkTestResponse {
  t_backend : string;
  t_database : string;
  t_database_url : option string;
  t_database_name : option string;
  t_connection_status : string;
  t_collections : list string
}.

(** What the handler asks of the handle: its [name] attribute, and
    [list_collection_names()], which gives the names or raises with a
    message. *)
Record Probe : Type := mkProbe {
  probe_name : option string;
  probe_collections : list string + string
}.

(** [database_url] is [os.getenv("DATABASE_URL")]. *)
Definition test_database (db : option Probe) (database_url : option string)
  : TestResponse :=
  match db with
  | None =>
      mkTestResponse "✅ Running" "❌ Not Available" None None
                     "Not Connected" []
  | Some p =>
      let url := Some (if Py.truthy database_url then "✅ Set" else "❌ Not Set") in
      let name := Some (if Py.truthy (probe_name p) then opt_get (probe_name p)
                        else "Unknown") in
      match probe_collections p with
      | inl names =>
          mkTestResponse "✅ Running" "✅ Connected & Working" url name
                         "Connected" (firstn 10 names)
      | inr msg =>
          mkTestResponse "✅ Running"
                         ("⚠️ Connected but Error: " ++ substring 0 80 msg)
                         url name "Connected" []
      end
  end.

(** The accumulation [acc + x] from 0, one term after the other: what
    [$sum] does with the documents of a group and lines 294-295 do with
    the rows of a key. *)
Definition running_sum (xs : list Q) : Q := fold_left Qplus xs 0%Q.

(** The selected line items of the group [(d, c)] of [$group], in the
    order of the collection, and the sum [$sum] makes of them. *)
Definition in_group (d : string) (c : option string) (x : Order * OrderItem)
  : bool :=
  String.eqb d (doc_day x) && opt_eqb c (doc_cat x).

Definition group_sales (f : Filter) (orders : list Order)
           (d : string) (c : option string) : Q :=
  running_sum (map doc_total (filter (in_group d c) (selected_lines f orders))).

(** The rows of a category name, and of a day, in the order of the rows. *)
Definition rows_of_category (k : string) (rows : list Row) : list Row :=
  filter (fun r => String.eqb k (row_cat r)) rows.

Definition rows_of_day (d : string) (rows : list Row) : list Row :=
  filter (fun r => String.eqb d (r_day r)) rows.

(** The orders that have an item of category [c]. *)
Definition with_category (c : string) (orders : list Order) : list Order :=
  filter (fun o => existsb (item_has_category c) (items o)) orders.

(** The sales of the first row of the group [(d, c)], 0 when there is
    none. *)
Definition sales_at (d : string) (c : option string) (rows : list Row) : Q :=
  match find (same_group d c) rows with
  | Some r => r_sales r
  | None => 0
  end.

(** No two rows of the same group. *)
Definition distinct_groups (rows : list Row) : Prop :=
  ForallOrdPairs (fun a b => same_group (r_day a) (r_category a) b = false) rows.

(* ------------------------------------------------------------------ *)
(** * Properties *)

Example scenario_overview :
  analytics_overview (Some (Connected scenario_orders)) None None None
  = Ok (mkResponse 160 3 (5333 # 100)
          [mkCategorySales "A" 130; mkCategorySales "B" 30]
          [mkTrendPoint "2025-11-01" 130; mkTrendPoint "2025-11-02" 30]).
Proof. vm_compute. reflexivity. Qed.

(** ** Rounding and sums *)

Example round2_values :
  Py.round2 (160 / 3) = (5333 # 100)%Q /\
  Py.round2 (2625 # 1000) = (131 # 50)%Q /\
  Py.round2 (2635 # 1000) = (66 # 25)%Q /\
  Py.round2 (- (5 # 1000)) = 0%Q.
Proof. repeat split; vm_compute; reflexivity. Qed.

Lemma round_half_even_comp (x y : Q) :
  (x == y)%Q -> Py.round_half_even x = Py.round_half_even y.
Proof.
  intros H. unfold Py.round_half_even.
  assert (Hf : Qfloor x = Qfloor y) by (now apply Qfloor_comp).
  rewrite Hf.
  assert (Hc : ((2 * (x - inject_Z (Qfloor y)) ?= 1)
                = (2 * (y - inject_Z (Qfloor y)) ?= 1))%Q).
  { apply Qcompare_comp; [now rewrite H | reflexivity]. }
  now rewrite Hc.
Qed.

Lemma round2_comp (x y : Q) : (x == y)%Q -> Py.round2 x = Py.round2 y.
Proof.
  intros H. unfold Py.round2.
  rewrite (round_half_even_comp (x * 100) (y * 100)); [reflexivity|].
  now rewrite H.
Qed.

(** ** Dictionaries *)

Lemma get_set (m : Py.dict) (k k' : string) (v d : Q) :
  Py.get (Py.set m k v) k' d = if String.eqb k' k then v else Py.get m k' d.
Proof.
  induction m as [|[k0 v0] m IH]; simpl.
  - reflexivity.
  - destruct (String.eqb k k0) eqn:E; simpl.
    + apply String.eqb_eq in E. subst k0.
      now destruct (String.eqb k' k).
    + rewrite IH. destruct (String.eqb k' k0) eqn:E'; [|reflexivity].
      apply String.eqb_eq in E'. subst k0.
      destruct (String.eqb k' k) eqn:E''; [|reflexivity].
      apply String.eqb_eq in E''. subst k'.
      rewrite String.eqb_refl in E. discriminate.
Qed.

Lemma keys_set (m : Py.dict) (k : string) (v : Q) :
  Py.keys (Py.set m k v)
  = if existsb (String.eqb k) (Py.keys m) then Py.keys m else Py.keys m ++ [k].
Proof.
  unfold Py.keys. induction m as [|[k0 v0] m IH]; simpl.
  - reflexivity.
  - destruct (String.eqb k k0) eqn:E; simpl.
    + reflexivity.
    + rewrite IH. now destruct (existsb (String.eqb k) (map fst m)).
Qed.

Lemma existsb_eqb_In (k : string) (l : list string) :
  existsb (String.eqb k) l = true <-> In k l.
Proof.
  rewrite existsb_exists. split.
  - intros [x [Hx E]]. apply String.eqb_eq in E. now subst.
  - intros H. exists k. split; [assumption | apply String.eqb_refl].
Qed.

Lemma In_keys_set (m : Py.dict) (k k' : string) (v : Q) :
  In k' (Py.keys (Py.set m k v)) <-> k' = k \/ In k' (Py.keys m).
Proof.
  rewrite keys_set.
  destruct (existsb (String.eqb k) (Py.keys m)) eqn:E.
  - apply existsb_eqb_In in E. split; [tauto|].
    intros [-> | H]; assumption.
  - rewrite in_app_iff. simpl. split.
    + intros [H | [H | []]]; [now right | now left].
    + intros [-> | H]; [right; now left | now left].
Qed.

Lemma NoDup_keys_set (m : Py.dict) (k : string) (v : Q) :
  NoDup (Py.keys m) -> NoDup (Py.keys (Py.set m k v)).
Proof.
  intros H. rewrite keys_set.
  destruct (existsb (String.eqb k) (Py.keys m)) eqn:E; [assumption|].
  apply NoDup_rev in H. rewrite <- (rev_involutive (_ ++ _)).
  apply NoDup_rev. rewrite rev_app_distr. simpl.
  constructor; [|assumption].
  rewrite <- in_rev. intros Hin. apply existsb_eqb_In in Hin. congruence.
Qed.

Lemma cat_map_accumulate rows : cat_map rows = accumulate row_cat rows [].
Proof. reflexivity. Qed.

Lemma trend_map_accumulate rows : trend_map rows = accumulate r_day rows [].
Proof. reflexivity. Qed.

Lemma accumulate_NoDup key rows m :
  NoDup (Py.keys m) -> NoDup (Py.keys (accumulate key rows m)).
Proof.
  revert m. induction rows as [|r rows IH]; intros m H; simpl.
  - assumption.
  - apply IH, NoDup_keys_set, H.
Qed.

Lemma accumulate_keys key rows m k :
  In k (Py.keys (accumulate key rows m))
  <-> In k (Py.keys m) \/ exists r, In r rows /\ key r = k.
Proof.
  revert m. induction rows as [|r rows IH]; intros m; simpl.
  - split; [now left | intros [H | [r [[] _]]]; exact H].
  - rewrite IH, In_keys_set. split.
    + intros [[-> | H] | [r' [H1 H2]]].
      * right. exists r. auto.
      * now left.
      * right. exists r'. auto.
    + intros [H | [r' [[-> | H1] H2]]].
      * left. now right.
      * left. now left.
      * right. exists r'. auto.
Qed.

(** ** [sorted] *)

Section SortedFacts.
Context {A : Type} (lt : A -> A -> bool).

Lemma insert_perm (x : A) (l : list A) :
  Permutation (Py.insert lt x l) (x :: l).
Proof.
  induction l as [|y l IH]; simpl.
  - apply Permutation_refl.
  - destruct (lt y x).
    + eapply perm_trans; [apply perm_skip, IH | apply perm_swap].
    + apply Permutation_refl.
Qed.

Lemma sorted_perm (l : list A) : Permutation (Py.sorted lt l) l.
Proof.
  induction l as [|x l IH]; simpl.
  - constructor.
  - eapply perm_trans; [apply insert_perm | now apply perm_skip].
Qed.

Lemma sorted_length (l : list A) :
  List.length (Py.sorted lt l) = List.length l.
Proof. apply Permutation_length, sorted_perm. Qed.

Lemma sorted_In (l : list A) (x : A) : In x (Py.sorted lt l) <-> In x l.
Proof.
  split; apply Permutation_in;
    [apply sorted_perm | apply Permutation_sym, sorted_perm].
Qed.

(** Stability: elements none of which must precede another keep the
    order they had. *)
Section Stable.
Variable p : A -> bool.
Hypothesis p_ties : forall a b, p a = true -> p b = true -> lt a b = false.

Lemma insert_filter (x : A) (l : list A) :
  filter p (Py.insert lt x l) = filter p (x :: l).
Proof.
  induction l as [|y l IH]; [reflexivity|].
  simpl. destruct (lt y x) eqn:E; [|reflexivity].
  simpl. rewrite IH. simpl.
  destruct (p y) eqn:Py, (p x) eqn:Px; try reflexivity.
  rewrite (p_ties y x Py Px) in E. discriminate.
Qed.

Lemma sorted_filter (l : list A) : filter p (Py.sorted lt l) = filter p l.
Proof.
  induction l as [|x l IH]; [reflexivity|].
  simpl Py.sorted. rewrite insert_filter. simpl. now rewrite IH.
Qed.
End Stable.

Section Ordered.
Hypothesis lt_asym : forall a b, lt a b = true -> lt b a = false.
Hypothesis may_trans :
  forall a b c, may_precede lt a b -> may_precede lt b c -> may_precede lt a c.

Lemma insert_sorted (x : A) (l : list A) :
  StronglySorted (may_precede lt) l ->
  StronglySorted (may_precede lt) (Py.insert lt x l).
Proof.
  induction 1 as [|y l Hl IH Hy]; simpl.
  - repeat constructor.
  - destruct (lt y x) eqn:E.
    + constructor; [exact IH|].
      rewrite Forall_forall in *. intros z Hz.
      apply (Permutation_in _ (insert_perm x l)) in Hz.
      destruct Hz as [<- | Hz]; [now apply lt_asym | now apply Hy].
    + constructor; [now constructor|].
      constructor; [exact E|].
      rewrite Forall_forall in *. intros z Hz.
      apply (may_trans x y z); [exact E | now apply Hy].
Qed.

Lemma sorted_sorted (l : list A) :
  StronglySorted (may_precede lt) (Py.sorted lt l).
Proof.
  induction l as [|x l IH]; simpl; [constructor | now apply insert_sorted].
Qed.
End Ordered.

End SortedFacts.

(** Two orders that agree on every pair the sort compares give the same
    arrangement. *)
Lemma insert_ext {A : Type} (lt1 lt2 : A -> A -> bool) (x : A) (l : list A) :
  (forall y, In y l -> lt1 y x = lt2 y x) ->
  Py.insert lt1 x l = Py.insert lt2 x l.
Proof.
  induction l as [|y l IH]; intros H; [reflexivity|].
  simpl. rewrite (H y (or_introl eq_refl)), IH; [reflexivity|].
  intros z Hz. apply H. now right.
Qed.

Lemma sorted_ext {A : Type} (lt1 lt2 : A -> A -> bool) (l : list A) :
  ForallOrdPairs (fun x y => lt1 y x = lt2 y x) l ->
  Py.sorted lt1 l = Py.sorted lt2 l.
Proof.
  induction 1 as [|x l Hx _ IH]; [reflexivity|].
  simpl. rewrite IH. apply insert_ext.
  intros y Hy. apply sorted_In in Hy.
  rewrite Forall_forall in Hx. now apply Hx.
Qed.

(** A sorted list cut in two: nothing in the tail must precede anything
    in the head. *)
Lemma StronglySorted_firstn_skipn {A : Type} (R : A -> A -> Prop)
      (n : nat) (l : list A) :
  StronglySorted R l ->
  forall a b, In a (firstn n l) -> In b (skipn n l) -> R a b.
Proof.
  intros H. revert n. induction H as [|x l Hl IH Hx]; intros n a b Ha Hb.
  - destruct n; simpl in Ha; contradiction.
  - destruct n as [|n]; simpl in Ha, Hb; [contradiction|].
    destruct Ha as [<- | Ha].
    + rewrite Forall_forall in Hx. apply Hx.
      rewrite <- (firstn_skipn n l). apply in_or_app. now right.
    + now apply (IH n).
Qed.

Lemma StronglySorted_firstn {A : Type} (R : A -> A -> Prop)
      (n : nat) (l : list A) :
  StronglySorted R l -> StronglySorted R (firstn n l).
Proof.
  intros H. revert n. induction H as [|x l Hl IH Hx]; intros n.
  - destruct n; constructor.
  - destruct n as [|n]; simpl; constructor; [apply IH|].
    rewrite Forall_forall in *. intros y Hy. apply Hx.
    rewrite <- (firstn_skipn n l). apply in_or_app. now left.
Qed.

(** ** Order of strings *)

Lemma ascii_compare_refl (c : ascii) : Ascii.compare c c = Eq.
Proof. unfold Ascii.compare. apply N.compare_refl. Qed.

Lemma str_compare_refl (s : string) : String.compare s s = Eq.
Proof.
  induction s as [|c s IH]; simpl; [reflexivity|].
  now rewrite ascii_compare_refl.
Qed.

Lemma str_compare_trans (a b c : string) :
  String.compare a b = Lt -> String.compare b c = Lt ->
  String.compare a c = Lt.
Proof.
  revert b c. induction a as [|x a IH]; intros [|y b] [|z c]; simpl;
    try congruence.
  unfold Ascii.compare.
  destruct (N.compare_spec (N_of_ascii x) (N_of_ascii y)) as [E1|L1|G1];
    destruct (N.compare_spec (N_of_ascii y) (N_of_ascii z)) as [E2|L2|G2];
    try discriminate; intros H1 H2.
  - rewrite E1, E2, N.compare_refl. now apply (IH b c).
  - rewrite E1. now apply N.compare_lt_iff in L2 as ->.
  - rewrite <- E2. now apply N.compare_lt_iff in L1 as ->.
  - assert (L : (N_of_ascii x < N_of_ascii z)%N) by lia.
    now apply N.compare_lt_iff in L as ->.
Qed.

(** ** The summary of the rows *)

(** [summarize] returns for every list of rows, and this is what it
    returns. *)
Lemma summarize_ok (rows : list Row) :
  summarize rows
  = Ok (mkResponse
          (Py.round2 (rows_total rows))
          (rows_orders_count rows)
          (if rows_orders_count rows =? 0 then 0%Q
           else Py.round2 (rows_total rows / inject_Z (rows_orders_count rows)))
          (firstn 5 (category_breakdown rows))
          (trend_of rows)).
Proof.
  unfold summarize, Py.truediv.
  destruct (rows_orders_count rows =? 0); reflexivity.
Qed.

(** The handler on a store that answers, once the filter is built. *)
Lemma overview_connected (orders : list Order)
      (start_date end_date category : option string) (f : Filter) :
  build_filter start_date end_date category = Ok f ->
  analytics_overview (Some (Connected orders)) start_date end_date category
  = summarize (pipeline f orders).
Proof.
  intros H. unfold analytics_overview, overview_try. rewrite H. simpl.
  rewrite summarize_ok. reflexivity.
Qed.

(** C5: [avg_order_value] is [round(total_sales / orders_count, 2)] when
    [orders_count] is not zero and [0.0] when it is, [total_sales] being
    the sum of line 285; the summary is returned for every list of rows,
    so the division never raises [ZeroDivisionError]. *)
Theorem C5_avg_order_value_guarded (rows : list Row) :
  exists resp,
    summarize rows = Ok resp /\
    orders_count resp = rows_orders_count rows /\
    (orders_count resp <> 0 ->
     Py.truediv (rows_total rows) (orders_count resp)
     = Ok (rows_total rows / inject_Z (orders_count resp))%Q /\
     avg_order_value resp
     = Py.round2 (rows_total rows / inject_Z (orders_count resp))) /\
    (orders_count resp = 0 -> avg_order_value resp = 0%Q).
Proof.
  eexists. split; [apply summarize_ok|]. simpl.
  split; [reflexivity|]. split.
  - intros H. apply Z.eqb_neq in H. unfold Py.truediv. rewrite H. auto.
  - intros H. now rewrite H.
Qed.

(** ** Totals (C3) *)

Lemma category_breakdown_perm (rows : list Row) :
  Permutation (category_breakdown rows) (category_entries rows).
Proof. apply sorted_perm. Qed.

Lemma trend_of_perm (rows : list Row) :
  Permutation (trend_of rows) (trend_entries rows).
Proof. apply Permutation_map, sorted_perm. Qed.

(** C3, as stated, fails: the five orders above give [total_sales = 0.02],
    while every entry of the category breakdown and of the trend is
    rounded to [0.0], so that both sums are [0]. *)
Lemma C3_rounded_entries_miss_total :
  exists resp,
    analytics_overview (Some (Connected rounding_orders)) None None None
    = Ok resp /\
    total_sales resp = (1 # 50)%Q /\
    (Py.sum (map cs_sales (category_breakdown (pipeline no_filter rounding_orders)))
     == 0)%Q /\
    (Py.sum (map tp_sales (trend resp)) == 0)%Q /\
    ~ (total_sales resp
       == Py.sum (map cs_sales
                    (category_breakdown (pipeline no_filter rounding_orders))))%Q /\
    ~ (total_sales resp == Py.sum (map tp_sales (trend resp)))%Q.
Proof.
  eexists. split; [vm_compute; reflexivity|]. simpl.
  repeat split; try (vm_compute; congruence); vm_compute; reflexivity.
Qed.

(** ** Top categories (C4) *)

Lemma float_lt_true (x y : Q) : float_lt x y = true <-> (x < y)%Q.
Proof.
  unfold float_lt. rewrite Qlt_alt.
  destruct (x ?= y)%Q; split; congruence.
Qed.

Lemma float_lt_false (x y : Q) : float_lt x y = false <-> (y <= x)%Q.
Proof.
  unfold float_lt. rewrite Qle_alt, <- (Qcompare_antisym x y).
  destruct (x ?= y)%Q; simpl; split; congruence.
Qed.

Lemma by_sales_desc_asym a b :
  by_sales_desc a b = true -> by_sales_desc b a = false.
Proof.
  unfold by_sales_desc. rewrite float_lt_true, float_lt_false.
  apply Qlt_le_weak.
Qed.

Lemma by_sales_desc_trans a b c :
  may_precede by_sales_desc a b -> may_precede by_sales_desc b c ->
  may_precede by_sales_desc a c.
Proof.
  unfold may_precede, by_sales_desc. rewrite !float_lt_false.
  intros H1 H2. eapply Qle_trans; eassumption.
Qed.

Lemma StronglySorted_impl {A : Type} (R R' : A -> A -> Prop) (l : list A) :
  (forall a b, R a b -> R' a b) ->
  StronglySorted R l -> StronglySorted R' l.
Proof.
  intros HR. induction 1 as [|x l Hl IH Hx]; constructor; [exact IH|].
  eapply Forall_impl; [|exact Hx]. intros y. apply HR.
Qed.

Lemma category_breakdown_sorted (rows : list Row) :
  StronglySorted (fun a b => cs_sales b <= cs_sales a)%Q
                 (category_breakdown rows).
Proof.
  apply StronglySorted_impl with (R := may_precede by_sales_desc).
  - intros a b. unfold may_precede, by_sales_desc. now rewrite float_lt_false.
  - apply sorted_sorted.
    + apply by_sales_desc_asym.
    + apply by_sales_desc_trans.
Qed.

Lemma category_breakdown_stable (rows : list Row) (s : Q) :
  filter (tied s) (category_breakdown rows)
  = filter (tied s) (category_entries rows).
Proof.
  apply sorted_filter. intros a b Ha Hb.
  unfold tied in *. apply Qeq_bool_iff in Ha, Hb.
  apply float_lt_false. rewrite Ha, Hb. apply Qle_refl.
Qed.

Lemma filter_firstn_prefix {A : Type} (p : A -> bool) (n : nat) (l : list A) :
  exists k, filter p (firstn n l) = firstn k (filter p l).
Proof.
  revert n. induction l as [|x l IH]; intros n.
  - exists 0%nat. now rewrite firstn_nil.
  - destruct n as [|n]; [now exists 0%nat|].
    destruct (IH n) as [k Hk]. simpl. destruct (p x).
    + exists (S k). simpl. now rewrite Hk.
    + now exists k.
Qed.

Lemma category_entries_keys (rows : list Row) :
  map cs_category (category_entries rows) = Py.keys (cat_map rows).
Proof.
  unfold category_entries, Py.keys. rewrite map_map. reflexivity.
Qed.

Lemma cat_map_NoDup (rows : list Row) : NoDup (Py.keys (cat_map rows)).
Proof. rewrite cat_map_accumulate. apply accumulate_NoDup. constructor. Qed.

Lemma not_in_firstn_in_skipn {A : Type} (n : nat) (l : list A) (x : A) :
  In x l -> ~ In x (firstn n l) -> In x (skipn n l).
Proof.
  intros H Hn. rewrite <- (firstn_skipn n l) in H.
  apply in_app_or in H. tauto.
Qed.

(** C4: [top_categories] is the first five entries of the stable
    descending sort of the category entries.  It has at most five
    entries, in descending order of sales; entries of equal sales stand
    in the order in which the category map iterates; when the map has
    more than five categories there are exactly five entries, and no
    category left out sells more than the fifth.  The categories of the
    map are distinct, and are the names line 292 gives to the groups of
    the rows. *)
Theorem C4_top_categories (rows : list Row) :
  exists resp,
    summarize rows = Ok resp /\
    top_categories resp = firstn 5 (category_breakdown rows) /\
    (List.length (top_categories resp) <= 5)%nat /\
    StronglySorted (fun a b => cs_sales b <= cs_sales a)%Q
                   (top_categories resp) /\
    Permutation (category_breakdown rows) (category_entries rows) /\
    (forall s, filter (tied s) (category_breakdown rows)
               = filter (tied s) (category_entries rows)) /\
    (forall s, exists k, filter (tied s) (top_categories resp)
                         = firstn k (filter (tied s) (category_entries rows))) /\
    NoDup (map cs_category (category_entries rows)) /\
    (forall c, In c (Py.keys (cat_map rows))
               <-> exists r, In r rows /\ row_cat r = c) /\
    ((5 < List.length (Py.keys (cat_map rows)))%nat ->
     List.length (top_categories resp) = 5%nat) /\
    (forall e e5,
        In e (category_breakdown rows) ->
        ~ In (cs_category e) (map cs_category (top_categories resp)) ->
        nth_error (top_categories resp) 4 = Some e5 ->
        (cs_sales e <= cs_sales e5)%Q).
Proof.
  eexists. split; [apply summarize_ok|]. cbn [top_categories].
  split; [reflexivity|].
  split; [apply firstn_le_length|].
  split; [apply StronglySorted_firstn, category_breakdown_sorted|].
  split; [apply category_breakdown_perm|].
  split; [apply category_breakdown_stable|].
  split.
  { intros s.
    destruct (filter_firstn_prefix (tied s) 5 (category_breakdown rows))
      as [k Hk].
    exists k. now rewrite Hk, category_breakdown_stable. }
  split; [rewrite category_entries_keys; apply cat_map_NoDup|].
  split.
  { intros c. rewrite cat_map_accumulate, accumulate_keys. simpl. tauto. }
  split.
  { intros H. rewrite length_firstn. apply Nat.min_l.
    unfold category_breakdown. rewrite sorted_length.
    fold (category_entries rows).
    rewrite <- (length_map cs_category), category_entries_keys. lia. }
  intros e e5 He Hout H5.
  apply nth_error_In in H5.
  assert (Hskip : In e (skipn 5 (category_breakdown rows))).
  { apply not_in_firstn_in_skipn; [exact He|].
    intros Hin. apply Hout. now apply in_map. }
  apply (StronglySorted_firstn_skipn _ 5 _ (category_breakdown_sorted rows)
                                     e5 e H5 Hskip).
Qed.

Example seven_categories_top :
  exists resp,
    analytics_overview (Some (Connected seven_categories)) None None None
    = Ok resp /\
    top_categories resp
    = [ mkCategorySales "b" 70; mkCategorySales "f" 60;
        mkCategorySales "d" 50; mkCategorySales "g" 40;
        mkCategorySales "a" 10 ].
Proof. eexists. split; vm_compute; reflexivity. Qed.

(** ** The [$group] stage *)

Lemma stage_group_from docs : stage_group docs = group_from docs [].
Proof. reflexivity. Qed.

Lemma opt_eqb_eq (a b : option string) : opt_eqb a b = true -> a = b.
Proof.
  destruct a, b; simpl; try congruence.
  intros H. apply String.eqb_eq in H. now subst.
Qed.

Lemma same_group_eq d c r :
  same_group d c r = true -> r_day r = d /\ r_category r = c.
Proof.
  unfold same_group. intros H. apply andb_true_iff in H as [H1 H2].
  apply String.eqb_eq in H1. apply opt_eqb_eq in H2. now subst.
Qed.

(** Every row is the group of some document. *)
Lemma group_add_keys d c t i rows r :
  In r (group_add d c t i rows) ->
  (r_day r = d /\ r_category r = c) \/
  (exists r0, In r0 rows /\ r_day r0 = r_day r /\ r_category r0 = r_category r).
Proof.
  induction rows as [|r0 rows IH]; simpl.
  - intros [<- | []]. now left.
  - destruct (same_group d c r0) eqn:E.
    + intros [<- | H]; simpl.
      * right. exists r0. auto.
      * right. exists r. auto.
    + intros [<- | H].
      * right. exists r0. auto.
      * destruct (IH H) as [Hk | [r1 [H1 H2]]]; [now left|].
        right. exists r1. auto.
Qed.

Lemma group_from_keys docs rows r :
  In r (group_from docs rows) ->
  (exists d, In d docs /\ r_day r = doc_day d /\ r_category r = doc_cat d) \/
  (exists r0, In r0 rows /\ r_day r0 = r_day r /\ r_category r0 = r_category r).
Proof.
  revert rows. induction docs as [|d docs IH]; intros rows; simpl.
  - intros H. right. exists r. auto.
  - intros H. apply IH in H. destruct H as [[d' [H1 H2]] | [r0 [H1 [H2 H3]]]].
    + left. exists d'. auto.
    + apply group_add_keys in H1.
      destruct H1 as [[Hd Hc] | [r1 [H1 [H4 H5]]]].
      * left. exists d. split; [now left|]. split; congruence.
      * right. exists r1. split; [exact H1|]. split; congruence.
Qed.

(** The order ids the rows carry are those of the documents. *)
Lemma add_to_set_In x i s : In x (add_to_set i s) <-> x = i \/ In x s.
Proof.
  unfold add_to_set. destruct (existsb (String.eqb i) s) eqn:E.
  - apply existsb_eqb_In in E. split; [auto | intros [-> | H]; auto].
  - rewrite in_app_iff. simpl. intuition congruence.
Qed.

Lemma group_add_orders d c t i rows x :
  In x (flat_map r_orders (group_add d c t i rows))
  <-> x = i \/ In x (flat_map r_orders rows).
Proof.
  induction rows as [|r rows IH]; simpl.
  - intuition congruence.
  - destruct (same_group d c r); simpl.
    + rewrite !in_app_iff, add_to_set_In. tauto.
    + rewrite !in_app_iff, IH. tauto.
Qed.

Lemma group_from_orders docs rows x :
  In x (flat_map r_orders (group_from docs rows))
  <-> In x (map (fun d => oid (fst d)) docs) \/ In x (flat_map r_orders rows).
Proof.
  revert rows. induction docs as [|d docs IH]; intros rows; simpl.
  - tauto.
  - unfold group_from in *. simpl. rewrite IH, group_add_orders.
    split; intros H; intuition (subst; auto).
Qed.

(** ** The pipeline as a whole *)

Lemma row_cat_name (r : Row) : row_cat r = cat_name (r_category r).
Proof. reflexivity. Qed.

Lemma filter_all {A : Type} (l : list A) : filter (fun _ => true) l = l.
Proof. induction l as [|x l IH]; simpl; congruence. Qed.

(** The orders counted are the orders that pass [$match] and have a line
    item. *)
Lemma unwind_ids (orders : list Order) (x : string) :
  In x (map (fun d => oid (fst d)) (stage_unwind orders))
  <-> exists o, In o orders /\ items o <> [] /\ oid o = x.
Proof.
  unfold stage_unwind. rewrite in_map_iff. split.
  - intros [[o it] [Hx Hin]]. simpl in Hx.
    apply in_flat_map in Hin as [o' [Ho Hit]].
    apply in_map_iff in Hit as [it' [E Hit]]. inversion E; subst.
    exists o. repeat split; [assumption|].
    intros Hnil. rewrite Hnil in Hit. contradiction.
  - intros [o [Ho [Hne Hx]]].
    destruct (items o) as [|it its] eqn:E; [congruence|].
    exists (o, it). split; [exact Hx|].
    apply in_flat_map. exists o. split; [assumption|].
    rewrite E. now left.
Qed.

Lemma pipeline_order_ids (f : Filter) (orders : list Order) (x : string) :
  In x (rows_order_ids (pipeline f orders))
  <-> exists o, In o orders /\ matches f o = true /\ items o <> [] /\ oid o = x.
Proof.
  unfold rows_order_ids, pipeline. rewrite nodup_In, stage_group_from.
  rewrite group_from_orders, unwind_ids. unfold stage_match. simpl.
  split.
  - intros [[o [Ho H]] | []]. apply filter_In in Ho as [Ho Hm].
    exists o. tauto.
  - intros [o [Ho [Hm H]]]. left. exists o. split; [|exact H].
    apply filter_In. tauto.
Qed.

(** An order that fails [$match] leaves no trace in the rows. *)
Lemma pipeline_skips_unmatched (f : Filter) (o : Order) (before after : list Order) :
  matches f o = false ->
  pipeline f (before ++ o :: after) = pipeline f (before ++ after).
Proof.
  intros H. unfold pipeline, stage_match.
  rewrite !filter_app. simpl. now rewrite H.
Qed.

Lemma pipeline_none_matched (f : Filter) (orders : list Order) :
  stage_match f orders = [] -> pipeline f orders = [].
Proof. intros H. unfold pipeline. now rewrite H. Qed.

(** ** The category filter (C1) *)

(** C1, as stated, fails: with the filter [category = "A"] the order
    above qualifies, and its line of category B is summed as well.  The
    lines of category A amount to 100; the handler returns 130, with an
    entry for B in [top_categories]. *)
Lemma C1_other_category_is_summed :
  exists resp,
    analytics_overview (Some (Connected [mixed_order])) None None (Some "A")
    = Ok resp /\
    (qsum (map line_total (filter (item_has_category "A") (items mixed_order)))
     == 100)%Q /\
    total_sales resp = 130%Q /\
    ~ (total_sales resp == 100)%Q /\
    top_categories resp = [mkCategorySales "A" 100; mkCategorySales "B" 30] /\
    trend resp = [mkTrendPoint "2025-11-01" 130].
Proof.
  eexists. split; [vm_compute; reflexivity|]. simpl.
  repeat split; try (vm_compute; congruence); vm_compute; reflexivity.
Qed.

(** ** No order matches (C6) *)

Lemma summarize_nil : summarize [] = Ok empty_summary.
Proof. reflexivity. Qed.

(** C6: when no order passes the filters, in particular when there is
    no order at all, the summary is [total_sales = 0], [orders_count = 0],
    [avg_order_value = 0.0], no top category and no trend point. *)
Theorem C6_no_order_matches
        (orders : list Order) (start_date end_date category : option string)
        (f : Filter) :
  build_filter start_date end_date category = Ok f ->
  stage_match f orders = [] ->
  analytics_overview (Some (Connected orders)) start_date end_date category
  = Ok empty_summary.
Proof.
  intros Hf Hm. rewrite (overview_connected _ _ _ _ f Hf).
  rewrite (pipeline_none_matched f orders Hm). apply summarize_nil.
Qed.

(** The orders of the scenario, asked from 2026 on. *)
Lemma C6_no_order_matches_witness :
  build_filter (Some "2026-01-01") None None
  = Ok (mkFilter (Some (at_day 2026 1 1)) None None) /\
  stage_match (mkFilter (Some (at_day 2026 1 1)) None None) scenario_orders = [] /\
  analytics_overview (Some (Connected scenario_orders))
                     (Some "2026-01-01") None None
  = Ok empty_summary.
Proof.
  split; [reflexivity|]. split; [reflexivity|].
  apply (C6_no_order_matches scenario_orders (Some "2026-01-01") None None
           (mkFilter (Some (at_day 2026 1 1)) None None));
    reflexivity.
Defined.

Example empty_collection :
  analytics_overview (Some (Connected [])) None None None = Ok empty_summary.
Proof. reflexivity. Qed.

(** ** Items without a category (C9) *)

Lemma build_filter_category sd ed cat f :
  build_filter sd ed cat = Ok f ->
  f_category f = if Py.truthy cat then cat else None.
Proof.
  unfold build_filter.
  destruct (Py.truthy sd || Py.truthy ed).
  - destruct (Py.truthy sd); [destruct (fromisoformat (opt_get sd))|];
      simpl; try discriminate;
      (destruct (Py.truthy ed); [destruct (fromisoformat (opt_get ed))|]);
      simpl; try discriminate; intros H; inversion H; reflexivity.
  - simpl. intros H. inversion H. reflexivity.
Qed.

Lemma schema_orders_unmatched (f : Filter) (c : string) (orders : list Order) :
  (forall o it, In o orders -> In it (items o) -> schema_item it) ->
  f_category f = Some c ->
  stage_match f orders = [].
Proof.
  intros Hs Hc. unfold stage_match.
  induction orders as [|o orders IH]; [reflexivity|].
  simpl. rewrite IH by (intros o' it Ho; apply Hs; now right).
  assert (Hm : existsb (item_has_category c) (items o) = false).
  { apply not_true_is_false. intros H.
    apply existsb_exists in H as [it [Hit Hcat]].
    unfold item_has_category in Hcat.
    rewrite (Hs o it (or_introl eq_refl) Hit) in Hcat. discriminate. }
  unfold matches. rewrite Hc, Hm. now rewrite andb_false_r.
Qed.

Lemma schema_rows (f : Filter) (orders : list Order) :
  (forall o it, In o orders -> In it (items o) -> schema_item it) ->
  forall r, In r (pipeline f orders) -> row_cat r = "Unknown".
Proof.
  intros Hs r Hr. unfold pipeline in Hr. rewrite stage_group_from in Hr.
  apply group_from_keys in Hr as [[[o it] [Hd [_ Hc]]] | [r0 [[] _]]].
  unfold stage_unwind in Hd. apply in_flat_map in Hd as [o' [Ho Hit]].
  apply in_map_iff in Hit as [it' [E Hit]]. inversion E; subst.
  apply filter_In in Ho as [Ho _].
  rewrite row_cat_name, Hc. unfold doc_cat. simpl.
  now rewrite (Hs o it Ho Hit).
Qed.

Example schema_orders_overview :
  analytics_overview (Some (Connected schema_orders)) None None None
  = Ok (mkResponse 180 3 60
          [mkCategorySales "Unknown" 180]
          [mkTrendPoint "2025-11-01" 150; mkTrendPoint "2025-11-02" 30]).
Proof. vm_compute. reflexivity. Qed.

(** ** Days as strings (C7) *)

Lemma lex_assoc (a b c : comparison) : lex (lex a b) c = lex a (lex b c).
Proof. now destruct a. Qed.

Lemma lex_Eq_r (a : comparison) : lex a Eq = a.
Proof. now destruct a. Qed.

Lemma str_compare_cons (c1 c2 : ascii) (s1 s2 : string) :
  String.compare (String c1 s1) (String c2 s2)
  = lex (Ascii.compare c1 c2) (String.compare s1 s2).
Proof. simpl. now destruct (Ascii.compare c1 c2). Qed.

Lemma digit_char_code (n : Z) :
  N_of_ascii (digit_char n) = Z.to_N (48 + n mod 10).
Proof.
  unfold digit_char. apply N_ascii_embedding.
  pose proof (Z.mod_pos_bound n 10 ltac:(lia)). lia.
Qed.

Lemma digit_char_compare (a b : Z) :
  Ascii.compare (digit_char a) (digit_char b) = (a mod 10 ?= b mod 10).
Proof.
  unfold Ascii.compare. rewrite !digit_char_code.
  pose proof (Z.mod_pos_bound a 10 ltac:(lia)).
  pose proof (Z.mod_pos_bound b 10 ltac:(lia)).
  rewrite Z2N.inj_compare by lia.
  apply Z.add_compare_mono_l.
Qed.

(** Comparing two integers is comparing their tens, then their units. *)
Lemma compare_base10 (a b : Z) :
  lex (a / 10 ?= b / 10) (a mod 10 ?= b mod 10) = (a ?= b).
Proof.
  pose proof (Z.div_mod a 10 ltac:(lia)).
  pose proof (Z.div_mod b 10 ltac:(lia)).
  pose proof (Z.mod_pos_bound a 10 ltac:(lia)).
  pose proof (Z.mod_pos_bound b 10 ltac:(lia)).
  destruct (Z.compare_spec (a / 10) (b / 10));
    destruct (Z.compare_spec (a mod 10) (b mod 10));
    destruct (Z.compare_spec a b); simpl; try reflexivity; lia.
Qed.

Lemma compare_digits4 (y y' : Z) (k : comparison) :
  0 <= y < 10000 -> 0 <= y' < 10000 ->
  lex ((y / 1000) mod 10 ?= (y' / 1000) mod 10)
   (lex ((y / 100) mod 10 ?= (y' / 100) mod 10)
    (lex ((y / 10) mod 10 ?= (y' / 10) mod 10)
     (lex (y mod 10 ?= y' mod 10) k)))
  = lex (y ?= y') k.
Proof.
  intros Hy Hy'.
  rewrite <- (compare_base10 y y'), <- (compare_base10 (y / 10) (y' / 10)),
    <- (compare_base10 (y / 10 / 10) (y' / 10 / 10)).
  rewrite !Z.div_div by lia.
  change (10 * 10) with 100. change (10 * 100) with 1000.
  assert (H1 : y / 1000 / 10 = 0) by (rewrite Z.div_div by lia; now apply Z.div_small).
  assert (H2 : y' / 1000 / 10 = 0) by (rewrite Z.div_div by lia; now apply Z.div_small).
  replace (y / 1000 ?= y' / 1000)
    with ((y / 1000) mod 10 ?= (y' / 1000) mod 10).
  - now rewrite !lex_assoc.
  - rewrite <- (compare_base10 (y / 1000) (y' / 1000)), H1, H2. reflexivity.
Qed.

Lemma compare_digits2 (m m' : Z) (k : comparison) :
  0 <= m < 100 -> 0 <= m' < 100 ->
  lex ((m / 10) mod 10 ?= (m' / 10) mod 10) (lex (m mod 10 ?= m' mod 10) k)
  = lex (m ?= m') k.
Proof.
  intros Hm Hm'.
  rewrite <- (compare_base10 m m').
  assert (H1 : m / 10 / 10 = 0) by (rewrite Z.div_div by lia; now apply Z.div_small).
  assert (H2 : m' / 10 / 10 = 0) by (rewrite Z.div_div by lia; now apply Z.div_small).
  replace (m / 10 ?= m' / 10) with ((m / 10) mod 10 ?= (m' / 10) mod 10).
  - now rewrite !lex_assoc.
  - rewrite <- (compare_base10 (m / 10) (m' / 10)), H1, H2. reflexivity.
Qed.

Lemma days_in_month_le (y m : Z) : days_in_month y m <= 31.
Proof.
  unfold days_in_month.
  destruct (m =? 2); [destruct (is_leap y); lia|].
  destruct ((m =? 4) || (m =? 6) || (m =? 9) || (m =? 11)); lia.
Qed.

Lemma valid_datetime_ranges (d : datetime) :
  valid_datetime d = true ->
  1 <= year d <= 9999 /\ 1 <= month d <= 12 /\ 1 <= day d <= 31.
Proof.
  unfold valid_datetime. rewrite !andb_true_iff, !Z.leb_le.
  pose proof (days_in_month_le (year d) (month d)). lia.
Qed.

(** On the days a [datetime] can hold, the order of the [%Y-%m-%d]
    strings is the order of the days. *)
Lemma dateToString_compare (a b : datetime) :
  valid_datetime a = true -> valid_datetime b = true ->
  String.compare (dateToString a) (dateToString b) = date_compare a b.
Proof.
  intros Ha Hb.
  apply valid_datetime_ranges in Ha, Hb.
  unfold dateToString, pad4, pad2, date_compare. cbn [String.append].
  rewrite !str_compare_cons, !digit_char_compare.
  rewrite compare_digits4 by lia.
  rewrite ?ascii_compare_refl. cbn [lex].
  rewrite !compare_digits2 by lia.
  cbn [String.compare]. now rewrite lex_Eq_r.
Qed.

(** ** The trend (C7) *)

Lemma item_lt_by_key (a b : string * Q) :
  fst a <> fst b -> Py.item_lt a b = by_key a b.
Proof.
  intros H. unfold Py.item_lt, by_key, Py.str_lt.
  destruct (String.compare (fst a) (fst b)) eqn:E; try reflexivity.
  apply String.compare_eq_iff in E. contradiction.
Qed.

Lemma NoDup_keys_pairs (m : Py.dict) :
  NoDup (Py.keys m) ->
  ForallOrdPairs (fun x y => Py.item_lt y x = by_key y x) m.
Proof.
  unfold Py.keys. induction m as [|x m IH]; simpl; intros H.
  - constructor.
  - inversion H as [|k ks Hx Hm]; subst. constructor; [|now apply IH].
    apply Forall_forall. intros y Hy. apply item_lt_by_key.
    intros E. apply Hx. rewrite <- E. now apply in_map.
Qed.

(** The keys of a dictionary are distinct, so that sorting its items
    never compares two values. *)
Lemma sorted_items_by_key (m : Py.dict) :
  NoDup (Py.keys m) -> Py.sorted Py.item_lt m = Py.sorted by_key m.
Proof. intros H. apply sorted_ext, NoDup_keys_pairs, H. Qed.

Lemma by_key_asym a b : by_key a b = true -> by_key b a = false.
Proof.
  unfold by_key, Py.str_lt. rewrite (String.compare_antisym (fst b) (fst a)).
  now destruct (String.compare (fst a) (fst b)).
Qed.

Lemma by_key_trans a b c :
  may_precede by_key a b -> may_precede by_key b c -> may_precede by_key a c.
Proof.
  unfold may_precede, by_key, Py.str_lt. intros H1 H2.
  destruct (String.compare (fst c) (fst a)) eqn:Eca; try reflexivity.
  exfalso.
  destruct (String.compare (fst b) (fst a)) eqn:Eba; try discriminate.
  - apply String.compare_eq_iff in Eba. rewrite Eba, Eca in H2. discriminate.
  - assert (Eab : String.compare (fst a) (fst b) = Lt)
      by (rewrite String.compare_antisym, Eba; reflexivity).
    rewrite (str_compare_trans _ _ _ Eca Eab) in H2. discriminate.
Qed.

Lemma sorted_keys_strict (l : list (string * Q)) :
  StronglySorted (may_precede by_key) l ->
  NoDup (map fst l) ->
  StronglySorted (fun a b => String.compare (fst a) (fst b) = Lt) l.
Proof.
  induction 1 as [|x l Hl IH Hx]; simpl; intros Hnd; constructor;
    inversion Hnd as [|k ks Hk Hks]; subst.
  - now apply IH.
  - rewrite Forall_forall in *. intros y Hy.
    specialize (Hx y Hy). unfold may_precede, by_key, Py.str_lt in Hx.
    rewrite String.compare_antisym.
    destruct (String.compare (fst y) (fst x)) eqn:E;
      try reflexivity; try discriminate.
    apply String.compare_eq_iff in E. exfalso. apply Hk.
    rewrite <- E. now apply in_map.
Qed.

Lemma StronglySorted_map {A B : Type} (g : A -> B) (R : B -> B -> Prop)
      (l : list A) :
  StronglySorted (fun a b => R (g a) (g b)) l -> StronglySorted R (map g l).
Proof.
  induction 1 as [|x l Hl IH Hx]; simpl; constructor; [exact IH|].
  rewrite Forall_forall in *. intros y Hy.
  apply in_map_iff in Hy as [y0 [<- Hy0]]. now apply Hx.
Qed.

Lemma trend_map_NoDup (rows : list Row) : NoDup (Py.keys (trend_map rows)).
Proof. rewrite trend_map_accumulate. apply accumulate_NoDup. constructor. Qed.

Lemma trend_of_sorted (rows : list Row) :
  StronglySorted (fun a b => String.compare (tp_date a) (tp_date b) = Lt)
                 (trend_of rows).
Proof.
  unfold trend_of. apply StronglySorted_map. simpl.
  rewrite (sorted_items_by_key _ (trend_map_NoDup rows)).
  apply sorted_keys_strict.
  - apply sorted_sorted; [apply by_key_asym | apply by_key_trans].
  - apply (Permutation_NoDup (l := Py.keys (trend_map rows)));
      [|apply trend_map_NoDup].
    apply Permutation_sym, Permutation_map, sorted_perm.
Qed.

(** The days of the trend are the days of the orders selected. *)
Lemma pipeline_days (f : Filter) (orders : list Order) (r : Row) :
  In r (pipeline f orders) ->
  exists o, In o orders /\ matches f o = true /\
            r_day r = dateToString (order_date o).
Proof.
  intros Hr. unfold pipeline in Hr. rewrite stage_group_from in Hr.
  apply group_from_keys in Hr as [[[o it] [Hd [Hday _]]] | [r0 [[] _]]].
  unfold stage_unwind in Hd. apply in_flat_map in Hd as [o' [Ho Hit]].
  apply in_map_iff in Hit as [it' [E Hit]]. inversion E; subst.
  apply filter_In in Ho as [Ho Hm]. exists o. auto.
Qed.

Lemma trend_of_days (rows : list Row) (p : TrendPoint) :
  In p (trend_of rows) -> exists r, In r rows /\ r_day r = tp_date p.
Proof.
  unfold trend_of. intros H. apply in_map_iff in H as [[d s] [<- H]].
  apply sorted_In in H. simpl.
  assert (Hk : In d (Py.keys (trend_map rows)))
    by (apply in_map_iff; exists (d, s); auto).
  rewrite trend_map_accumulate in Hk. apply accumulate_keys in Hk.
  destruct Hk as [[] | Hk]. exact Hk.
Qed.

(** C7: the trend lists the entries of the day map, each rounded to two
    decimals, in strictly ascending order of the day strings; each day
    is the [%Y-%m-%d] string of the date of an order selected; and on
    such strings the order of strings is the order of days. *)
Theorem C7_trend_sorted_by_day (f : Filter) (orders : list Order) :
  exists resp,
    summarize (pipeline f orders) = Ok resp /\
    Permutation (trend resp) (trend_entries (pipeline f orders)) /\
    StronglySorted (fun a b => String.compare (tp_date a) (tp_date b) = Lt)
                   (trend resp) /\
    (forall p, In p (trend resp) ->
       exists o, In o orders /\ matches f o = true /\
                 tp_date p = dateToString (order_date o)) /\
    (forall a b, valid_datetime a = true -> valid_datetime b = true ->
       String.compare (dateToString a) (dateToString b) = date_compare a b).
Proof.
  eexists. split; [apply summarize_ok|]. cbn [trend].
  split; [apply trend_of_perm|].
  split; [apply trend_of_sorted|].
  split; [|apply dateToString_compare].
  intros p Hp. apply trend_of_days in Hp as [r [Hr Hd]].
  apply pipeline_days in Hr as [o [Ho [Hm Hday]]].
  exists o. repeat split; try assumption. congruence.
Qed.

Example shuffled_trend :
  exists resp,
    analytics_overview (Some (Connected shuffled_orders)) None None None
    = Ok resp /\
    trend resp
    = [ mkTrendPoint "2024-12-31" (131 # 50);
        mkTrendPoint "2025-02-03" 14;
        mkTrendPoint "2025-11-01" 10 ].
Proof. eexists. split; vm_compute; reflexivity. Qed.

(** ** The date bounds (C2) *)

(** The filter of a well-formed request. *)
Lemma build_filter_no_dates (category : option string) :
  build_filter None None category
  = Ok (mkFilter None None (if Py.truthy category then category else None)).
Proof. reflexivity. Qed.

(** Without bounds and without category every order passes [$match]. *)
Lemma no_filter_matches_all (orders : list Order) :
  stage_match no_filter orders = orders.
Proof.
  unfold stage_match, matches, no_filter. simpl. apply filter_all.
Qed.

(** Both bounds admit the instant they name. *)
Lemma datetime_leb_refl (t : datetime) : datetime_leb t t = true.
Proof.
  unfold datetime_leb, datetime_compare. now rewrite !Z.compare_refl.
Qed.

(** The lower bound is midnight of [start_date]: every time of that day
    passes it. *)
Lemma lower_bound_same_day (y m d : Z) (t : datetime) :
  year t = y -> month t = m -> day t = d ->
  0 <= hour t -> 0 <= minute t -> 0 <= second t -> 0 <= microsecond t ->
  datetime_leb (at_day y m d) t = true.
Proof.
  destruct t as [y' m' d' h mi s u]. simpl. intros -> -> -> Hh Hm Hs Hu.
  unfold datetime_leb, datetime_compare, at_day.
  cbn [year month day hour minute second microsecond].
  rewrite !Z.compare_refl. cbn [lex].
  destruct h, mi, s, u; try lia; reflexivity.
Qed.

(** The upper bound is midnight of [end_date] as well: of the times of
    that day, midnight alone passes it. *)
Lemma upper_bound_same_day (y m d : Z) (t : datetime) :
  year t = y -> month t = m -> day t = d ->
  0 <= hour t -> 0 <= minute t -> 0 <= second t -> 0 <= microsecond t ->
  (datetime_leb t (at_day y m d) = true
   <-> hour t = 0 /\ minute t = 0 /\ second t = 0 /\ microsecond t = 0).
Proof.
  destruct t as [y' m' d' h mi s u]. simpl. intros -> -> -> Hh Hm Hs Hu.
  unfold datetime_leb, datetime_compare, at_day.
  cbn [year month day hour minute second microsecond].
  rewrite !Z.compare_refl. cbn [lex].
  destruct h, mi, s, u; try lia; cbn;
    (split; [try discriminate; auto | intros; try lia; reflexivity]).
Qed.

(** A day before the lower bound, or after the upper bound, fails. *)
Lemma lower_bound_earlier_day (lo t : datetime) :
  date_compare t lo = Lt -> datetime_leb lo t = false.
Proof.
  unfold date_compare, datetime_leb, datetime_compare.
  rewrite (Z.compare_antisym (year t)), (Z.compare_antisym (month t)),
    (Z.compare_antisym (day t)).
  destruct (year t ?= year lo); simpl; try discriminate; try reflexivity.
  destruct (month t ?= month lo); simpl; try discriminate; try reflexivity.
  destruct (day t ?= day lo); simpl; try discriminate; reflexivity.
Qed.

Lemma upper_bound_later_day (hi t : datetime) :
  date_compare t hi = Gt -> datetime_leb t hi = false.
Proof.
  unfold date_compare, datetime_leb, datetime_compare.
  destruct (year t ?= year hi); simpl; try discriminate; try reflexivity.
  destruct (month t ?= month hi); simpl; try discriminate; try reflexivity.
  destruct (day t ?= day hi); simpl; try discriminate; reflexivity.
Qed.

(** A date-only string parses to midnight of its day. *)

Lemma digit_of_digit_char (n : Z) : digit_of (digit_char n) = Some (n mod 10).
Proof.
  unfold digit_of. rewrite digit_char_code.
  pose proof (Z.mod_pos_bound n 10 ltac:(lia)) as H.
  rewrite Z2N.id by lia.
  replace ((48 <=? 48 + n mod 10) && (48 + n mod 10 <=? 57)) with true.
  - f_equal. lia.
  - symmetry. apply andb_true_iff. split; apply Z.leb_le; lia.
Qed.

Lemma num2_pad (n : Z) :
  0 <= n < 100 -> num2 (digit_char (n / 10)) (digit_char n) = Some n.
Proof.
  intros H. unfold num2. rewrite !digit_of_digit_char. f_equal.
  rewrite (Z.mod_small (n / 10)) by (split; [apply Z.div_pos | apply Z.div_lt_upper_bound]; lia).
  pose proof (Z.div_mod n 10 ltac:(lia)). lia.
Qed.

Lemma num4_pad (n : Z) :
  0 <= n < 10000 ->
  num4 (digit_char (n / 1000)) (digit_char (n / 100)) (digit_char (n / 10))
       (digit_char n)
  = Some n.
Proof.
  intros H. unfold num4, num2. rewrite !digit_of_digit_char. f_equal.
  Z.div_mod_to_equations. lia.
Qed.

Lemma valid_datetime_at_day (t : datetime) :
  valid_datetime t = true ->
  valid_datetime (at_day (year t) (month t) (day t)) = true.
Proof.
  unfold valid_datetime, at_day. simpl.
  rewrite !andb_true_iff. intuition.
Qed.

Lemma fromisoformat_date (t : datetime) :
  valid_datetime t = true ->
  fromisoformat (dateToString t) = Ok (at_day (year t) (month t) (day t)).
Proof.
  intros Hv. pose proof (valid_datetime_ranges t Hv) as [Hy [Hm Hd]].
  apply valid_datetime_at_day in Hv.
  unfold dateToString, pad4, pad2. cbn [String.append fromisoformat].
  change (is_dash "-") with true. cbn [andb parse_clock].
  rewrite num4_pad, !num2_pad by lia.
  fold (at_day (year t) (month t) (day t)). now rewrite Hv.
Qed.

(** With [end_date] the day of an order, the order passes [$match] only
    if it was placed at midnight; with [start_date] its day, it always
    passes. *)
Lemma end_date_of_order_day (o : Order) :
  valid_order o = true ->
  exists f,
    build_filter None (Some (dateToString (order_date o))) None = Ok f /\
    (matches f o = true
     <-> hour (order_date o) = 0 /\ minute (order_date o) = 0 /\
         second (order_date o) = 0 /\ microsecond (order_date o) = 0).
Proof.
  unfold valid_order. rewrite andb_true_iff. intros [_ Hv].
  exists (mkFilter None (Some (at_day (year (order_date o))
                                     (month (order_date o))
                                     (day (order_date o)))) None).
  split.
  - unfold build_filter.
    replace (Py.truthy (Some (dateToString (order_date o)))) with true
      by reflexivity.
    cbn [Py.truthy orb opt_get]. rewrite (fromisoformat_date _ Hv).
    reflexivity.
  - unfold matches. cbn [f_gte f_lte f_category].
    rewrite andb_true_r. cbn [andb].
    unfold valid_datetime in Hv. rewrite !andb_true_iff, !Z.leb_le in Hv.
    apply upper_bound_same_day; intuition.
Qed.

(** With [start_date] the day of an order, the order passes [$match]
    whatever its time of day. *)
Lemma start_date_of_order_day (o : Order) :
  valid_order o = true ->
  exists f,
    build_filter (Some (dateToString (order_date o))) None None = Ok f /\
    matches f o = true.
Proof.
  unfold valid_order. rewrite andb_true_iff. intros [_ Hv].
  exists (mkFilter (Some (at_day (year (order_date o))
                               (month (order_date o))
                               (day (order_date o)))) None None).
  split.
  - unfold build_filter.
    replace (Py.truthy (Some (dateToString (order_date o)))) with true
      by reflexivity.
    cbn [Py.truthy orb opt_get]. rewrite (fromisoformat_date _ Hv).
    reflexivity.
  - unfold matches. cbn [f_gte f_lte f_category].
    rewrite !andb_true_r.
    unfold valid_datetime in Hv. rewrite !andb_true_iff, !Z.leb_le in Hv.
    apply lower_bound_same_day; intuition.
Qed.

(** C2 at [end_date = "2025-11-02"]: the order above is of that day and
    the handler leaves it out; with [start_date] of the same day, or
    with no bound, it is counted. *)
Theorem C2_end_date_leaves_out_its_day :
  valid_order morning_order = true /\
  dateToString (order_date morning_order) = "2025-11-02" /\
  analytics_overview (Some (Connected [morning_order]))
                     None (Some "2025-11-02") None
  = Ok empty_summary /\
  analytics_overview (Some (Connected [morning_order]))
                     (Some "2025-11-02") None None
  = Ok (mkResponse 100 1 100 [mkCategorySales "A" 100]
                   [mkTrendPoint "2025-11-02" 100]) /\
  analytics_overview (Some (Connected [morning_order])) None None None
  = Ok (mkResponse 100 1 100 [mkCategorySales "A" 100]
                   [mkTrendPoint "2025-11-02" 100]).
Proof. repeat split; vm_compute; reflexivity. Qed.

(** ** Errors and the placeholder (C8, C10) *)

Lemma fallback_placeholder : fallback = Ok placeholder.
Proof. vm_compute. reflexivity. Qed.

Lemma overview_cases (db : option Database) (sd ed cat : option string) :
  (exists resp, overview_try db sd ed cat = Ok (Some resp) /\
                analytics_overview db sd ed cat = Ok resp) \/
  ((overview_try db sd ed cat = Ok None \/
    exists e, overview_try db sd ed cat = Raise e) /\
   analytics_overview db sd ed cat = fallback).
Proof.
  unfold analytics_overview.
  destruct (overview_try db sd ed cat) as [[resp|]|e]; simpl.
  - left. exists resp. auto.
  - right. auto.
  - right. split; [right; now exists e | reflexivity].
Qed.

Lemma overview_try_no_db (sd ed cat : option string) :
  overview_try None sd ed cat = Ok None \/
  exists e, overview_try None sd ed cat = Raise e.
Proof.
  unfold overview_try. destruct (build_filter sd ed cat) as [f|e]; simpl.
  - now left.
  - right. now exists e.
Qed.

(** C8, as stated, fails: a malformed date and a store that cannot run
    the pipeline both raise inside the handler, and the handler answers
    with the placeholder. *)
Lemma C8_errors_are_replaced :
  overview_try (Some (Connected scenario_orders)) (Some "yesterday") None None
  = Raise ValueError /\
  analytics_overview (Some (Connected scenario_orders))
                     (Some "yesterday") None None
  = Ok placeholder /\
  overview_try (Some Unreachable) None None None = Raise PyMongoError /\
  analytics_overview (Some Unreachable) None None None = Ok placeholder.
Proof. repeat split; vm_compute; reflexivity. Qed.

(** C8, amended: the handler returns a response for every store and
    every request and raises nothing; on a store that answers and with
    well-formed dates the response is the summary of the rows; an
    exception raised on the way is caught and the placeholder is
    returned in its place. *)
Theorem C8_overview_returns_or_falls_back
        (db : option Database) (start_date end_date category : option string) :
  (exists resp, analytics_overview db start_date end_date category = Ok resp) /\
  (forall orders f,
      db = Some (Connected orders) ->
      build_filter start_date end_date category = Ok f ->
      analytics_overview db start_date end_date category
      = summarize (pipeline f orders) /\
      exists resp, summarize (pipeline f orders) = Ok resp) /\
  (forall e,
      overview_try db start_date end_date category = Raise e ->
      analytics_overview db start_date end_date category = Ok placeholder).
Proof.
  split; [|split].
  - destruct (overview_cases db start_date end_date category)
      as [[resp [_ H]] | [_ H]].
    + now exists resp.
    + exists placeholder. now rewrite H, fallback_placeholder.
  - intros orders f -> Hf. split; [now apply overview_connected|].
    eexists. apply summarize_ok.
  - intros e He. unfold analytics_overview. rewrite He. simpl.
    apply fallback_placeholder.
Qed.

(** C10: without a database handle, or when a step of the [try] body
    raises, the handler returns the placeholder: [total_sales = 7500.0],
    [orders_count = 42], [avg_order_value = 178.57], two top categories
    that amount to 5500 and five trend points that amount to 7500; the
    top categories of the placeholder do not add up to its total. *)
Theorem C10_placeholder_summary
        (db : option Database) (start_date end_date category : option string) :
  db = None \/
  (exists e, overview_try db start_date end_date category = Raise e) ->
  analytics_overview db start_date end_date category = Ok placeholder /\
  total_sales placeholder = 7500%Q /\
  orders_count placeholder = 42 /\
  avg_order_value placeholder = (17857 # 100)%Q /\
  List.length (top_categories placeholder) = 2%nat /\
  (Py.sum (map cs_sales (top_categories placeholder)) == 5500)%Q /\
  List.length (trend placeholder) = 5%nat /\
  (Py.sum (map tp_sales (trend placeholder)) == 7500)%Q /\
  ~ (Py.sum (map cs_sales (top_categories placeholder))
     == total_sales placeholder)%Q.
Proof.
  intros H. split.
  - rewrite <- fallback_placeholder.
    destruct (overview_cases db start_date end_date category)
      as [[resp [Hr _]] | [_ Hf]]; [|exact Hf].
    exfalso. destruct H as [-> | [e He]].
    + destruct (overview_try_no_db start_date end_date category)
        as [Hn | [e He]]; congruence.
    + congruence.
  - repeat split; try reflexivity; vm_compute; congruence.
Qed.

(** No handle, and a store that fails. *)
Lemma C10_placeholder_summary_witness :
  analytics_overview None (Some "2025-11-01") None (Some "A") = Ok placeholder /\
  analytics_overview (Some Unreachable) None None None = Ok placeholder.
Proof.
  split.
  - apply (C10_placeholder_summary None (Some "2025-11-01") None (Some "A")).
    left. reflexivity.
  - apply (C10_placeholder_summary (Some Unreachable) None None None).
    right. exists PyMongoError. reflexivity.
Defined.

(* ------------------------------------------------------------------ *)
(** * Further properties of the handler *)

(** ** The keys of the rows and of the two maps *)

Lemma get_In (m : Py.dict) (k : string) (v d : Q) :
  NoDup (Py.keys m) -> In (k, v) m -> Py.get m k d = v.
Proof.
  unfold Py.keys. induction m as [|[k0 v0] m IH]; simpl; intros Hnd Hin.
  - contradiction.
  - inversion Hnd as [|x xs Hx Hm]; subst.
    destruct Hin as [E | Hin].
    + inversion E; subst. now rewrite String.eqb_refl.
    + destruct (String.eqb k k0) eqn:E; [|now apply IH].
      apply String.eqb_eq in E. subst k0. exfalso. apply Hx.
      apply in_map_iff. now exists (k, v).
Qed.

Lemma group_add_has_key d c t i rows :
  exists r, In r (group_add d c t i rows) /\ r_day r = d /\ r_category r = c.
Proof.
  induction rows as [|r0 rows IH]; simpl.
  - eexists. split; [now left|]. auto.
  - destruct (same_group d c r0) eqn:E.
    + apply same_group_eq in E as [Hd Hc].
      eexists. split; [now left|]. simpl. auto.
    + destruct IH as [r [Hr Hk]]. exists r. split; [now right | exact Hk].
Qed.

Lemma group_add_keeps_key d c t i rows r0 :
  In r0 rows ->
  exists r, In r (group_add d c t i rows) /\
            r_day r = r_day r0 /\ r_category r = r_category r0.
Proof.
  induction rows as [|r1 rows IH]; simpl; [contradiction|].
  intros [-> | Hin].
  - destruct (same_group d c r0); eexists; (split; [now left|]); simpl; auto.
  - destruct (same_group d c r1).
    + exists r0. split; [now right | auto].
    + destruct (IH Hin) as [r [Hr Hk]]. exists r. split; [now right | exact Hk].
Qed.

Lemma group_from_keeps_key docs rows r0 :
  In r0 rows ->
  exists r, In r (group_from docs rows) /\
            r_day r = r_day r0 /\ r_category r = r_category r0.
Proof.
  revert rows r0. induction docs as [|x docs IH]; intros rows r0 Hin.
  - exists r0. auto.
  - unfold group_from in *. simpl.
    destruct (group_add_keeps_key (doc_day x) (doc_cat x) (doc_total x)
                                  (oid (fst x)) rows r0 Hin) as [r1 [H1 [Hd Hc]]].
    destruct (IH _ r1 H1) as [r [Hr [Hd' Hc']]].
    exists r. split; [exact Hr|]. split; congruence.
Qed.

(** Every document entering [$group] has its row. *)
Lemma group_from_has_key docs rows x :
  In x docs ->
  exists r, In r (group_from docs rows) /\
            r_day r = doc_day x /\ r_category r = doc_cat x.
Proof.
  revert rows. induction docs as [|y docs IH]; intros rows Hin.
  - contradiction.
  - destruct Hin as [-> | Hin].
    + unfold group_from in *. simpl.
      destruct (group_add_has_key (doc_day x) (doc_cat x) (doc_total x)
                                  (oid (fst x)) rows) as [r1 [H1 [Hd Hc]]].
      destruct (group_from_keeps_key docs _ r1 H1) as [r [Hr [Hd' Hc']]].
      exists r. split; [exact Hr|]. split; congruence.
    + unfold group_from in *. simpl. now apply IH.
Qed.

Lemma selected_lines_In (f : Filter) (orders : list Order) (o : Order)
      (it : OrderItem) :
  In (o, it) (selected_lines f orders)
  <-> In o orders /\ matches f o = true /\ In it (items o).
Proof.
  unfold selected_lines, stage_unwind, stage_match.
  rewrite in_flat_map. split.
  - intros [o' [Ho Hit]]. apply filter_In in Ho as [Ho Hm].
    apply in_map_iff in Hit as [it' [E Hit]]. inversion E; subst. auto.
  - intros [Ho [Hm Hit]]. exists o. split; [apply filter_In; auto|].
    apply in_map_iff. now exists it.
Qed.

(** The days of the rows are the days of the selected line items, and
    likewise the category names. *)
Lemma pipeline_day_keys (f : Filter) (orders : list Order) (d : string) :
  In d (Py.keys (trend_map (pipeline f orders)))
  <-> exists x, In x (selected_lines f orders) /\ doc_day x = d.
Proof.
  rewrite trend_map_accumulate, accumulate_keys. simpl.
  unfold pipeline. fold (selected_lines f orders). rewrite stage_group_from.
  split.
  - intros [[] | [r [Hr Hd]]].
    apply group_from_keys in Hr as [[x [Hx [Hday _]]] | [r0 [[] _]]].
    exists x. split; [exact Hx | congruence].
  - intros [x [Hx Hd]]. right.
    destruct (group_from_has_key _ [] x Hx) as [r [Hr [Hday _]]].
    exists r. split; [exact Hr | congruence].
Qed.

Lemma pipeline_category_keys (f : Filter) (orders : list Order) (c : string) :
  In c (Py.keys (cat_map (pipeline f orders)))
  <-> exists x, In x (selected_lines f orders) /\ cat_name (doc_cat x) = c.
Proof.
  rewrite cat_map_accumulate, accumulate_keys. simpl.
  unfold pipeline. fold (selected_lines f orders). rewrite stage_group_from.
  split.
  - intros [[] | [r [Hr Hc]]].
    apply group_from_keys in Hr as [[x [Hx [_ Hcat]]] | [r0 [[] _]]].
    exists x. split; [exact Hx|]. rewrite <- Hc, row_cat_name. congruence.
  - intros [x [Hx Hc]]. right.
    destruct (group_from_has_key _ [] x Hx) as [r [Hr [_ Hcat]]].
    exists r. split; [exact Hr|]. rewrite row_cat_name. congruence.
Qed.

Lemma trend_of_dates (rows : list Row) :
  map tp_date (trend_of rows) = map fst (Py.sorted Py.item_lt (trend_map rows)).
Proof. unfold trend_of. rewrite map_map. reflexivity. Qed.

Lemma NoDup_firstn {A : Type} (n : nat) (l : list A) :
  NoDup l -> NoDup (firstn n l).
Proof.
  intros H. rewrite <- (firstn_skipn n l) in H.
  now apply NoDup_app_remove_r in H.
Qed.

Lemma In_firstn {A : Type} (n : nat) (l : list A) (x : A) :
  In x (firstn n l) -> In x l.
Proof.
  intros H. rewrite <- (firstn_skipn n l). apply in_or_app. now left.
Qed.

(** ** The number of orders *)

Lemma has_items_nonempty (o : Order) : has_items o = true <-> items o <> [].
Proof.
  unfold has_items. destruct (items o); split; congruence.
Qed.

Lemma counted_ids (f : Filter) (orders : list Order) (x : string) :
  In x (rows_order_ids (pipeline f orders))
  <-> In x (map oid (counted_orders f orders)).
Proof.
  rewrite pipeline_order_ids, in_map_iff. unfold counted_orders, stage_match.
  split.
  - intros [o [Ho [Hm [Hne Hx]]]]. exists o. split; [exact Hx|].
    apply filter_In. split; [apply filter_In; auto|].
    now apply has_items_nonempty.
  - intros [o [Hx Ho]]. apply filter_In in Ho as [Ho Hi].
    apply filter_In in Ho as [Ho Hm]. exists o.
    repeat split; try assumption. now apply has_items_nonempty.
Qed.

Lemma NoDup_map_filter {A B : Type} (g : A -> B) (p : A -> bool) (l : list A) :
  NoDup (map g l) -> NoDup (map g (filter p l)).
Proof.
  induction l as [|x l IH]; simpl; intros H; [constructor|].
  inversion H as [|y ys Hx Hl]; subst.
  destruct (p x); simpl; [|now apply IH].
  constructor; [|now apply IH].
  intros Hin. apply Hx. apply in_map_iff in Hin as [z [E Hz]].
  apply filter_In in Hz as [Hz _]. apply in_map_iff. now exists z.
Qed.

(** [orders_count] is the number of distinct ids among the orders that
    pass [$match] and have a line item: an order with several lines, or
    lines on several categories, counts once, and an order without lines
    does not count.  It is at most the number of those orders, and equal
    to it when the ids of the collection are distinct. *)
Theorem orders_count_distinct_ids (f : Filter) (orders : list Order) :
  exists resp,
    summarize (pipeline f orders) = Ok resp /\
    orders_count resp
    = Z.of_nat (List.length (nodup string_dec (map oid (counted_orders f orders)))) /\
    orders_count resp <= Z.of_nat (List.length (counted_orders f orders)) /\
    (NoDup (map oid orders) ->
     orders_count resp = Z.of_nat (List.length (counted_orders f orders))).
Proof.
  eexists. split; [apply summarize_ok|]. cbn [orders_count].
  assert (Hlen : List.length (rows_order_ids (pipeline f orders))
                 = List.length (nodup string_dec
                                      (map oid (counted_orders f orders)))).
  { apply Permutation_length, NoDup_Permutation.
    - apply NoDup_nodup.
    - apply NoDup_nodup.
    - intros x. rewrite counted_ids, nodup_In. reflexivity. }
  unfold rows_orders_count. rewrite Hlen.
  split; [reflexivity|]. split.
  - apply inj_le. rewrite <- (length_map oid (counted_orders f orders)).
    apply NoDup_incl_length; [apply NoDup_nodup|].
    intros x Hx. now apply nodup_In in Hx.
  - intros Hnd. rewrite nodup_fixed_point, length_map; [reflexivity|].
    unfold counted_orders, stage_match.
    now apply NoDup_map_filter, NoDup_map_filter.
Qed.

Example two_line_order_counts_once :
  exists resp,
    analytics_overview (Some (Connected [mixed_order])) None None None = Ok resp /\
    orders_count resp = 1.
Proof. eexists. split; vm_compute; reflexivity. Qed.

(** ** Rounding and line totals keep the sign *)

Lemma round_half_even_nonneg (x : Q) : (0 <= x)%Q -> 0 <= Py.round_half_even x.
Proof.
  intros H. unfold Py.round_half_even.
  assert (Hf : 0 <= Qfloor x).
  { change 0 with (Qfloor 0). now apply Qfloor_resp_le. }
  destruct (2 * (x - inject_Z (Qfloor x)) ?= 1)%Q; try lia.
  destruct (Z.even (Qfloor x)); lia.
Qed.

Lemma round2_nonneg (x : Q) : (0 <= x)%Q -> (0 <= Py.round2 x)%Q.
Proof.
  intros H. unfold Py.round2. rewrite Qred_correct.
  assert (Hx : (0 <= x * 100)%Q).
  { apply Qmult_le_0_compat; [exact H | discriminate]. }
  apply round_half_even_nonneg in Hx.
  unfold Qle. simpl. lia.
Qed.

Lemma line_total_nonneg (it : OrderItem) :
  valid_item it = true -> (0 <= line_total it)%Q.
Proof.
  unfold valid_item, line_total. rewrite andb_true_iff.
  intros [Hq Hp]. apply Z.leb_le in Hq. apply Qle_bool_iff in Hp.
  apply Qmult_le_0_compat; [|exact Hp].
  unfold Qle. simpl. lia.
Qed.

(** ** Lists sorted strictly *)

(** Two lists sorted strictly, with the same elements, are equal. *)
Lemma sorted_unique {A : Type} (R : A -> A -> Prop) (l l' : list A) :
  (forall a, ~ R a a) ->
  (forall a b, R a b -> R b a -> False) ->
  StronglySorted R l -> StronglySorted R l' ->
  (forall a, In a l <-> In a l') ->
  l = l'.
Proof.
  intros Hirr Hasym Hl. revert l'.
  induction Hl as [|x l Hl IH Hx]; intros l' Hl' Heq.
  - destruct l' as [|y l']; [reflexivity|].
    exfalso. apply (Heq y). now left.
  - destruct Hl' as [|y l' Hl' Hy].
    { exfalso. apply (Heq x). now left. }
    rewrite Forall_forall in Hx, Hy.
    assert (Exy : x = y).
    { destruct (proj1 (Heq x) (or_introl eq_refl)) as [E | Hin]; [now symmetry|].
      destruct (proj2 (Heq y) (or_introl eq_refl)) as [E | Hin']; [exact E|].
      exfalso. apply (Hasym x y); [now apply Hx | now apply Hy]. }
    subst y. f_equal. apply IH; [exact Hl'|].
    intros a. split; intros Ha.
    + destruct (proj1 (Heq a) (or_intror Ha)) as [E | Hin]; [|exact Hin].
      subst a. exfalso. apply (Hirr x). now apply Hx.
    + destruct (proj2 (Heq a) (or_intror Ha)) as [E | Hin]; [|exact Hin].
      subst a. exfalso. apply (Hirr x). now apply Hy.
Qed.

(** ** Edge cases of the request *)

Lemma datetime_leb_compare (a b : datetime) :
  datetime_leb a b = true <-> datetime_compare a b <> Gt.
Proof.
  unfold datetime_leb. destruct (datetime_compare a b); split; congruence.
Qed.

Lemma lex_le_step (x y z : Z) (kab kbc kac : comparison) :
  (kab <> Gt -> kbc <> Gt -> kac <> Gt) ->
  lex (x ?= y) kab <> Gt -> lex (y ?= z) kbc <> Gt -> lex (x ?= z) kac <> Gt.
Proof.
  intros H.
  destruct (Z.compare_spec x y), (Z.compare_spec y z), (Z.compare_spec x z);
    simpl; intros Hab Hbc; try congruence; try lia; auto.
Qed.

Lemma datetime_leb_trans (a b c : datetime) :
  datetime_leb a b = true -> datetime_leb b c = true -> datetime_leb a c = true.
Proof.
  rewrite !datetime_leb_compare. unfold datetime_compare.
  repeat apply lex_le_step.
  destruct (Z.compare_spec (microsecond a) (microsecond b)),
           (Z.compare_spec (microsecond b) (microsecond c)),
           (Z.compare_spec (microsecond a) (microsecond c));
    intros Hab Hbc; try congruence; lia.
Qed.

(** A range whose start is after its end selects nothing: the handler
    answers with the empty summary, not with an error. *)
Theorem reversed_range_is_empty
        (orders : list Order) (start_date end_date category : option string)
        (f : Filter) (lo hi : datetime) :
  build_filter start_date end_date category = Ok f ->
  f_gte f = Some lo -> f_lte f = Some hi ->
  datetime_leb lo hi = false ->
  analytics_overview (Some (Connected orders)) start_date end_date category
  = Ok empty_summary.
Proof.
  intros Hf Hlo Hhi Hrev. rewrite (overview_connected _ _ _ _ f Hf).
  rewrite pipeline_none_matched; [apply summarize_nil|].
  unfold stage_match. induction orders as [|o orders IH]; [reflexivity|].
  simpl. rewrite IH.
  replace (matches f o) with false; [reflexivity|].
  symmetry. apply not_true_is_false. intros Hm.
  unfold matches in Hm. rewrite Hlo, Hhi, !andb_true_iff in Hm.
  destruct Hm as [[H1 H2] _].
  rewrite (datetime_leb_trans _ _ _ H1 H2) in Hrev. discriminate.
Qed.

Lemma reversed_range_is_empty_witness :
  analytics_overview (Some (Connected scenario_orders))
                     (Some "2025-12-01") (Some "2025-10-01") None
  = Ok empty_summary.
Proof.
  apply (reversed_range_is_empty scenario_orders
           (Some "2025-12-01") (Some "2025-10-01") None
           (mkFilter (Some (at_day 2025 12 1)) (Some (at_day 2025 10 1)) None)
           (at_day 2025 12 1) (at_day 2025 10 1));
    reflexivity.
Defined.

(** An empty string is no date, yet an empty [start_date], [end_date] or
    [category] is not an error: each is taken as absent. *)
Theorem empty_parameters_are_absent
        (db : option Database) (start_date end_date category : option string) :
  fromisoformat "" = Raise ValueError /\
  analytics_overview db (Some "") end_date category
  = analytics_overview db None end_date category /\
  analytics_overview db start_date (Some "") category
  = analytics_overview db start_date None category /\
  analytics_overview db start_date end_date (Some "")
  = analytics_overview db start_date end_date None.
Proof.
  split; [reflexivity|]. split; [reflexivity|]. split; [|reflexivity].
  unfold analytics_overview, overview_try, build_filter.
  destruct (Py.truthy start_date); reflexivity.
Qed.

(* ------------------------------------------------------------------ *)
(** * [serialize_doc] *)

Lemma doc_get_set (d : document) (k k' : string) (v : value) :
  doc_get (doc_set d k v) k' = if String.eqb k' k then Some v else doc_get d k'.
Proof.
  induction d as [|[k0 v0] d IH]; simpl.
  - reflexivity.
  - destruct (String.eqb k k0) eqn:E; simpl.
    + apply String.eqb_eq in E. subst k0.
      now destruct (String.eqb k' k).
    + rewrite IH. destruct (String.eqb k' k0) eqn:E'; [|reflexivity].
      apply String.eqb_eq in E'. subst k0.
      destruct (String.eqb k' k) eqn:E''; [|reflexivity].
      apply String.eqb_eq in E''. subst k'.
      rewrite String.eqb_refl in E. discriminate.
Qed.

Lemma doc_get_pop (d : document) (k k' : string) :
  doc_get (doc_pop d k) k' = if String.eqb k' k then None else doc_get d k'.
Proof.
  unfold doc_pop. induction d as [|[k0 v0] d IH]; simpl.
  - now destruct (String.eqb k' k).
  - destruct (String.eqb k k0) eqn:E; simpl.
    + apply String.eqb_eq in E. subst k0. rewrite IH.
      now destruct (String.eqb k' k).
    + rewrite IH. destruct (String.eqb k' k0) eqn:E'; [|reflexivity].
      apply String.eqb_eq in E'. subst k0.
      rewrite String.eqb_sym, E. reflexivity.
Qed.

Lemma doc_get_json (d : document) (k : string) :
  doc_get (map (fun kv => (fst kv, json_value (snd kv))) d) k
  = option_map json_value (doc_get d k).
Proof.
  induction d as [|[k0 v0] d IH]; simpl; [reflexivity|].
  destruct (String.eqb k k0); [reflexivity | exact IH].
Qed.

Lemma json_value_idem (v : value) : json_value (json_value v) = json_value v.
Proof. now destruct v. Qed.

Lemma json_value_not_datetime (v : value) : is_datetime (json_value v) = false.
Proof. now destruct v. Qed.

Lemma doc_set_nonempty (d : document) (k : string) (v : value) :
  doc_set d k v <> [].
Proof.
  destruct d as [|[k0 v0] d]; simpl; [discriminate|].
  destruct (String.eqb k k0); discriminate.
Qed.

Lemma serialize_doc_nonempty (py_str : value -> string) (doc : document) :
  doc <> [] ->
  serialize_doc py_str doc
  = map (fun kv => (fst kv, json_value (snd kv)))
        match doc_get doc "_id" with
        | Some i => doc_set (doc_pop doc "_id") "id" (VStr (py_str i))
        | None => doc
        end.
Proof. destruct doc; [congruence | reflexivity]. Qed.

(** The raw [_id] never leaves: the document returned has no [_id]
    field; when the document had one, its [id] field is the string of
    that [_id], whatever [id] field the document carried itself; every
    other field keeps its value, a date at the top level being replaced
    by its ISO string and any other value, dates nested in lists and
    sub-documents included, left as it is. *)
Theorem serialize_doc_fields (py_str : value -> string) (doc : document) :
  doc_get (serialize_doc py_str doc) "_id" = None /\
  (forall i, doc_get doc "_id" = Some i ->
             doc_get (serialize_doc py_str doc) "id" = Some (VStr (py_str i))) /\
  (doc_get doc "_id" = None ->
   doc_get (serialize_doc py_str doc) "id"
   = option_map json_value (doc_get doc "id")) /\
  (forall k, k <> "_id" -> k <> "id" ->
             doc_get (serialize_doc py_str doc) k
             = option_map json_value (doc_get doc k)) /\
  (forall t, json_value (VDatetime t) = VStr (isoformat t)) /\
  (forall v, is_datetime v = false -> json_value v = v).
Proof.
  destruct doc as [|kv doc]; [simpl; repeat split; intros; try discriminate;
                               try reflexivity; now destruct v|].
  rewrite (serialize_doc_nonempty py_str (kv :: doc)) by discriminate.
  set (d := kv :: doc).
  split; [|split; [|split; [|split; [|split]]]].
  - rewrite doc_get_json. destruct (doc_get d "_id") eqn:E.
    + rewrite doc_get_set, doc_get_pop. reflexivity.
    + now rewrite E.
  - intros i Hi. rewrite doc_get_json, Hi, doc_get_set. reflexivity.
  - intros Hn. rewrite doc_get_json, Hn. reflexivity.
  - intros k H1 H2. rewrite doc_get_json. destruct (doc_get d "_id") eqn:E.
    + rewrite doc_get_set, doc_get_pop.
      apply String.eqb_neq in H1, H2. now rewrite H1, H2.
    + reflexivity.
  - reflexivity.
  - intros v Hv. now destruct v.
Qed.

Lemma serialize_json_fixed (py_str : value -> string) (d : document) :
  doc_get (map (fun kv => (fst kv, json_value (snd kv))) d) "_id" = None ->
  serialize_doc py_str (map (fun kv => (fst kv, json_value (snd kv))) d)
  = map (fun kv => (fst kv, json_value (snd kv))) d.
Proof.
  intros H. destruct d as [|x d]; [reflexivity|].
  rewrite serialize_doc_nonempty by (simpl; discriminate).
  rewrite H, map_map. apply map_ext.
  intros [k v]. simpl. now rewrite json_value_idem.
Qed.

(** What is returned is ready for JSON and stable: no field at the top
    level is a date any more, and serialising the result again changes
    nothing. *)
Theorem serialize_doc_idempotent (py_str : value -> string) (doc : document) :
  Forall (fun kv => is_datetime (snd kv) = false) (serialize_doc py_str doc) /\
  serialize_doc py_str (serialize_doc py_str doc) = serialize_doc py_str doc.
Proof.
  split.
  - destruct doc as [|kv doc]; [constructor|].
    rewrite serialize_doc_nonempty by discriminate.
    apply Forall_forall. intros x Hx.
    apply in_map_iff in Hx as [y [<- _]]. apply json_value_not_datetime.
  - pose proof (serialize_doc_fields py_str doc) as [Hid _].
    destruct doc as [|kv doc]; [reflexivity|].
    rewrite (serialize_doc_nonempty py_str (kv :: doc)) in * by discriminate.
    now apply serialize_json_fixed.
Qed.

Lemma doc_keys_set (d : document) (k : string) (v : value) :
  doc_keys (doc_set d k v)
  = if existsb (String.eqb k) (doc_keys d) then doc_keys d else doc_keys d ++ [k].
Proof.
  unfold doc_keys. induction d as [|[k0 v0] d IH]; simpl.
  - reflexivity.
  - destruct (String.eqb k k0) eqn:E; simpl.
    + reflexivity.
    + rewrite IH. now destruct (existsb (String.eqb k) (map fst d)).
Qed.

Lemma doc_keys_pop (d : document) (k : string) :
  doc_keys (doc_pop d k) = filter (fun k' => negb (String.eqb k k')) (doc_keys d).
Proof.
  unfold doc_keys, doc_pop. induction d as [|[k0 v0] d IH]; simpl.
  - reflexivity.
  - destruct (String.eqb k k0); simpl; now rewrite IH.
Qed.

Lemma doc_get_None (d : document) (k : string) :
  doc_get d k = None <-> ~ In k (doc_keys d).
Proof.
  unfold doc_keys. induction d as [|[k0 v0] d IH]; simpl.
  - tauto.
  - destruct (String.eqb k k0) eqn:E.
    + apply String.eqb_eq in E. subst. split; [discriminate | tauto].
    + apply String.eqb_neq in E. rewrite IH. split.
      * intros H [H1 | H1]; [congruence | tauto].
      * tauto.
Qed.

(** The fields keep their order.  Without an [_id] the keys are those of
    the document; with one, [_id] is taken out and [id] stands where the
    document had an [id] field, or last when it had none. *)
Theorem serialize_doc_keys (py_str : value -> string) (doc : document) :
  (doc_get doc "_id" = None ->
   doc_keys (serialize_doc py_str doc) = doc_keys doc) /\
  (forall i, doc_get doc "_id" = Some i ->
     let rest := filter (fun k => negb (String.eqb "_id" k)) (doc_keys doc) in
     doc_keys (serialize_doc py_str doc)
     = if existsb (String.eqb "id") rest then rest else rest ++ ["id"]).
Proof.
  assert (Hk : forall d : document,
             doc_keys (map (fun kv => (fst kv, json_value (snd kv))) d)
             = doc_keys d).
  { intros d. unfold doc_keys. rewrite map_map. reflexivity. }
  split.
  - intros Hn. destruct doc as [|kv doc]; [reflexivity|].
    rewrite serialize_doc_nonempty by discriminate. rewrite Hn. apply Hk.
  - intros i Hi rest. destruct doc as [|kv doc]; [discriminate|].
    rewrite serialize_doc_nonempty by discriminate.
    rewrite Hi, Hk, doc_keys_set, doc_keys_pop. reflexivity.
Qed.

Example serialize_customer_doc :
  serialize_doc str_of_id
    [ ("_id", VObjectId "65f0c0ffee0123456789abcd"); ("name", VStr "Alice");
      ("id", VInt 7); ("since", VDatetime (mkDatetime 2025 11 2 10 5 0 0));
      ("log", VList [VDatetime (at_day 2025 1 1)]) ]
  = [ ("name", VStr "Alice"); ("id", VStr "65f0c0ffee0123456789abcd");
      ("since", VStr "2025-11-02T10:05:00");
      ("log", VList [VDatetime (at_day 2025 1 1)]) ].
Proof. vm_compute. reflexivity. Qed.

(** ** Dates written and read back *)

Lemma fromisoformat_isoformat (t : datetime) :
  valid_datetime t = true -> microsecond t = 0 ->
  fromisoformat (isoformat t) = Ok t.
Proof.
  intros Hv Hus. destruct t as [y m d h mi sec us]. simpl in Hus. subst us.
  pose proof (valid_datetime_ranges _ Hv) as [Hy [Hm Hd]].
  pose proof Hv as Hr. unfold valid_datetime in Hr.
  cbn [year month day hour minute second microsecond] in Hy, Hm, Hd, Hr.
  rewrite !andb_true_iff, !Z.leb_le in Hr.
  unfold isoformat, dateToString, pad4, pad2.
  cbn [year month day hour minute second microsecond].
  change (Z.eqb 0 0) with true. cbn [String.append fromisoformat].
  change (is_dash "-") with true. cbn [andb parse_clock].
  change (is_colon ":") with true. cbn [andb].
  rewrite num4_pad, !num2_pad by lia.
  now rewrite Hv.
Qed.

(** The strings the code writes for a date are read back by
    [datetime.fromisoformat]: the day string of [$dateToString] gives
    midnight of its day, and the ISO string that [serialize_doc] writes
    for a date without microseconds gives the date again. *)
Theorem iso_strings_round_trip (t : datetime) :
  valid_datetime t = true ->
  fromisoformat (dateToString t) = Ok (at_day (year t) (month t) (day t)) /\
  json_value (VDatetime t) = VStr (isoformat t) /\
  (microsecond t = 0 -> fromisoformat (isoformat t) = Ok t).
Proof.
  intros Hv. split; [now apply fromisoformat_date|].
  split; [reflexivity | now apply fromisoformat_isoformat].
Qed.

Lemma iso_strings_round_trip_witness :
  fromisoformat (isoformat (mkDatetime 2025 11 2 10 5 9 0))
  = Ok (mkDatetime 2025 11 2 10 5 9 0).
Proof.
  apply (iso_strings_round_trip (mkDatetime 2025 11 2 10 5 9 0));
    reflexivity.
Defined.

(* ------------------------------------------------------------------ *)
(** * [login] and [signup] *)

(** The name the handlers make of an address is the part before the
    first [@]: a prefix of the address without any [@], followed in the
    address by nothing or by an [@]; an address without [@] is taken
    whole. *)
Theorem before_at_prefix (s : string) :
  (exists rest, s = (before_at s ++ rest)%string /\
                (rest = "" \/ exists r, rest = String "@" r)) /\
  ~ In "@"%char (list_ascii_of_string (before_at s)) /\
  (~ In "@"%char (list_ascii_of_string s) -> before_at s = s).
Proof.
  induction s as [|c s [[rest [Hs Hrest]] [Hno Hall]]]; simpl.
  - split; [exists ""; auto|]. split; [tauto | reflexivity].
  - destruct (Ascii.eqb c "@") eqn:E.
    + apply Ascii.eqb_eq in E. subst c.
      split; [exists (String "@" s); split; [reflexivity | right; now exists s]|].
      split; [simpl; tauto|]. intros H. exfalso. apply H. now left.
    + apply Ascii.eqb_neq in E. split; [|split].
      * exists rest. split; [simpl; now rewrite <- Hs | exact Hrest].
      * simpl. intros [H | H]; [congruence | tauto].
      * intros H. f_equal. apply Hall. tauto.
Qed.

Lemma find_all_false {A : Type} (p : A -> bool) (l : list A) :
  (forall x, In x l -> p x = false) -> find p l = None.
Proof.
  induction l as [|x l IH]; simpl; intros H; [reflexivity|].
  rewrite (H x (or_introl eq_refl)). apply IH. intros y Hy. apply H. now right.
Qed.

(** [login] never fails, and looks at nothing but the address: neither
    the password nor the name of the request changes its answer. *)
Theorem login_ignores_password
        (py_str : value -> string) (db : option Link) (payload : AuthRequest) :
  (exists r, login py_str db payload = Done r) /\
  (forall name password,
      login py_str db (mkAuthRequest name (req_email payload) password)
      = login py_str db payload).
Proof.
  split.
  - unfold login. destruct (login_try py_str db payload) as [[r|]|e];
      eexists; reflexivity.
  - intros name password. reflexivity.
Qed.

(** Without a handle, with a store that fails, or when no user document
    has the address, [login] answers with the demo token, the user
    "demo-user" and the part of the address before the [@] as name. *)
Theorem login_demo_fallback
        (py_str : value -> string) (db : option Link) (payload : AuthRequest) :
  db = None \/ db = Some Down \/
  (exists s, db = Some (Up s) /\
             forall d, In d (users s) ->
                       field_is_str "email" (req_email payload) d = false) ->
  login py_str db payload
  = Done (mkAuthResponse "demo-token"
            (mkAuthUser "demo-user" (VStr (before_at (req_email payload)))
                        (req_email payload))).
Proof.
  intros [-> | [-> | [s [-> H]]]]; try reflexivity.
  unfold login, login_try, find_one. now rewrite (find_all_false _ _ H).
Qed.

Lemma login_demo_fallback_witness :
  login str_of_id (Some (Up alice_store))
        (mkAuthRequest None "bob@example.com" "x")
  = Done (mkAuthResponse "demo-token"
            (mkAuthUser "demo-user" (VStr "bob") "bob@example.com")).
Proof.
  apply (login_demo_fallback str_of_id (Some (Up alice_store))
           (mkAuthRequest None "bob@example.com" "x")).
  right. right. exists alice_store. split; [reflexivity|].
  intros d [<- | []]. reflexivity.
Defined.

(** When a user document has the address, the token is the string of
    the [_id] of the first such document and so is the id of the user
    returned, with the name of the document (the address when it has
    none): this for any password. *)
Theorem login_known_address
        (py_str : value -> string) (s : Store) (payload : AuthRequest)
        (doc : document) (i : value) :
  find_one (field_is_str "email" (req_email payload)) (users s) = Some doc ->
  doc_get doc "_id" = Some i ->
  login py_str (Some (Up s)) payload
  = Done (mkAuthResponse (py_str i)
            (mkAuthUser (py_str i)
                        (match doc_get doc "name" with
                         | Some n => n
                         | None => VStr (req_email payload)
                         end)
                        (req_email payload))).
Proof.
  intros Hf Hi. unfold login, login_try. rewrite Hf.
  destruct doc as [|kv doc]; [discriminate|]. now rewrite Hi.
Qed.

Lemma login_known_address_witness :
  login str_of_id (Some (Up alice_store))
        (mkAuthRequest None "alice@example.com" "not the password")
  = Done (mkAuthResponse "65f0c0ffee0123456789abcd"
            (mkAuthUser "65f0c0ffee0123456789abcd" (VStr "Alice")
                        "alice@example.com")).
Proof.
  apply (login_known_address str_of_id alice_store
           (mkAuthRequest None "alice@example.com" "not the password")
           alice_doc (VObjectId "65f0c0ffee0123456789abcd"));
    reflexivity.
Defined.

(** [signup] builds the [User] before its [try]: a password of fewer
    than four characters, or an address [EmailStr] rejects, raises the
    validation error whatever the store does.  Otherwise it always
    answers: with the id of the new document as token and user id, or,
    when the document cannot be created, with the demo token; the name
    is the name of the request, or the part of the address before the
    [@] when the request has no name or an empty one. *)
Theorem signup_outcomes
        (validate_email : string -> option string)
        (create_document : User -> attempt string) (payload : AuthRequest) :
  let name := if Py.truthy (req_name payload) then opt_get (req_name payload)
              else before_at (req_email payload) in
  ((String.length (req_password payload) < 4)%nat \/
   validate_email (req_email payload) = None ->
   signup validate_email create_document payload = Failed ValidationError) /\
  (forall e,
      (4 <= String.length (req_password payload))%nat ->
      validate_email (req_email payload) = Some e ->
      let u := mkUser name e (req_password payload) "user" true in
      (forall id, create_document u = Done id ->
         signup validate_email create_document payload
         = Done (mkAuthResponse id (mkAuthUser id (VStr name) e))) /\
      (forall err, create_document u = Failed err ->
         signup validate_email create_document payload
         = Done (mkAuthResponse "demo-token"
                   (mkAuthUser "demo-user" (VStr name) e)))).
Proof.
  intros name. unfold signup, make_user. fold name. split.
  - intros [H | H].
    + apply Nat.ltb_lt in H. rewrite H.
      now destruct (validate_email (req_email payload)).
    + now rewrite H.
  - intros e Hlen He. rewrite He.
    assert (Hl : (String.length (req_password payload) <? 4)%nat = false)
      by (apply Nat.ltb_ge; lia).
    rewrite Hl. split.
    + intros id Hc. now rewrite Hc.
    + intros err Hc. now rewrite Hc.
Qed.

Example signup_short_password :
  signup Some (fun _ => Done "65f0c0ffee0123456789abcd")
         (mkAuthRequest (Some "") "carol@example.com" "abc")
  = Failed ValidationError /\
  signup Some (fun _ => Failed StoreError)
         (mkAuthRequest (Some "") "carol@example.com" "abcd")
  = Done (mkAuthResponse "demo-token"
            (mkAuthUser "demo-user" (VStr "carol") "carol@example.com")).
Proof. split; reflexivity. Qed.

(* ------------------------------------------------------------------ *)
(** * Updating and deleting by id *)

Lemma coll_get_put (c : collection) (docs : list document) (s : Store) :
  coll_get c (coll_put c docs s) = docs.
Proof. now destruct c. Qed.

Lemma coll_get_put_other (c c' : collection) (docs : list document) (s : Store) :
  c' <> c -> coll_get c' (coll_put c docs s) = coll_get c' s.
Proof. destruct c, c'; simpl; congruence. Qed.

Lemma coll_put_get (c : collection) (s : Store) : coll_put c (coll_get c s) s = s.
Proof. now destruct c, s. Qed.

Lemma update_one_none p fields (docs : list document) :
  (forall d, In d docs -> p d = false) -> update_one p fields docs = docs.
Proof.
  induction docs as [|d docs IH]; simpl; intros H; [reflexivity|].
  rewrite (H d (or_introl eq_refl)). f_equal. apply IH.
  intros x Hx. apply H. now right.
Qed.

Lemma delete_one_none p (docs : list document) :
  (forall d, In d docs -> p d = false) -> delete_one p docs = docs.
Proof.
  induction docs as [|d docs IH]; simpl; intros H; [reflexivity|].
  rewrite (H d (or_introl eq_refl)). f_equal. apply IH.
  intros x Hx. apply H. now right.
Qed.

Lemma update_one_first p fields (before after : list document) (d : document) :
  (forall x, In x before -> p x = false) -> p d = true ->
  update_one p fields (before ++ d :: after)
  = before ++ set_fields fields d :: after.
Proof.
  induction before as [|x before IH]; simpl; intros H Hd.
  - now rewrite Hd.
  - rewrite (H x (or_introl eq_refl)). f_equal. apply IH; [|exact Hd].
    intros y Hy. apply H. now right.
Qed.

Lemma delete_one_first p (before after : list document) (d : document) :
  (forall x, In x before -> p x = false) -> p d = true ->
  delete_one p (before ++ d :: after) = before ++ after.
Proof.
  induction before as [|x before IH]; simpl; intros H Hd.
  - now rewrite Hd.
  - rewrite (H x (or_introl eq_refl)). f_equal. apply IH; [|exact Hd].
    intros y Hy. apply H. now right.
Qed.

Lemma set_fields_other (fields d : document) (k : string) :
  ~ In k (doc_keys fields) -> doc_get (set_fields fields d) k = doc_get d k.
Proof.
  unfold set_fields. revert d.
  induction fields as [|[k0 v0] fields IH]; intros d H; simpl; [reflexivity|].
  rewrite IH by (intros Hin; apply H; now right).
  rewrite doc_get_set.
  destruct (String.eqb k k0) eqn:E; [|reflexivity].
  apply String.eqb_eq in E. subst. exfalso. apply H. now left.
Qed.

Lemma set_fields_in (fields d : document) (k : string) (v : value) :
  NoDup (doc_keys fields) -> In (k, v) fields ->
  doc_get (set_fields fields d) k = Some v.
Proof.
  unfold set_fields. revert d.
  induction fields as [|[k0 v0] fields IH]; intros d Hnd Hin; simpl;
    [contradiction|].
  inversion Hnd as [|x xs Hx Hf]; subst.
  destruct Hin as [E | Hin].
  - inversion E; subst.
    pose proof (set_fields_other fields (doc_set d k v) k Hx) as Ho.
    unfold set_fields in Ho. rewrite Ho, doc_get_set.
    now rewrite String.eqb_refl.
  - now apply IH.
Qed.

(** The handle is looked at before the id, and the id before the store:
    without a handle the answer is [False], even for a malformed id;
    with a handle a malformed id is an error 400, and so is a store that
    fails; in none of these cases does the store change. *)
Theorem by_id_guards
        (object_id : string -> option string) (c : collection)
        (id : string) (fields : document) :
  update_by_id object_id c None id fields = (Body false, None) /\
  delete_by_id object_id c None id = (Body false, None) /\
  (object_id id = None ->
   forall l,
     update_by_id object_id c (Some l) id fields
     = (HTTPException 400 InvalidId, Some l) /\
     delete_by_id object_id c (Some l) id
     = (HTTPException 400 InvalidId, Some l)) /\
  (forall h, object_id id = Some h ->
     update_by_id object_id c (Some Down) id fields
     = (HTTPException 400 StoreError, Some Down) /\
     delete_by_id object_id c (Some Down) id
     = (HTTPException 400 StoreError, Some Down)).
Proof.
  split; [reflexivity|]. split; [reflexivity|]. split.
  - intros H l. unfold update_by_id, delete_by_id. now rewrite H.
  - intros h H. unfold update_by_id, delete_by_id. now rewrite H.
Qed.

(** An id that no document of the collection has: both handlers answer
    [True] all the same, and the store is as it was. *)
Theorem absent_id_reports_true
        (object_id : string -> option string) (c : collection) (s : Store)
        (id h : string) (fields : document) :
  object_id id = Some h ->
  (forall d, In d (coll_get c s) -> has_id h d = false) ->
  update_by_id object_id c (Some (Up s)) id fields = (Body true, Some (Up s)) /\
  delete_by_id object_id c (Some (Up s)) id = (Body true, Some (Up s)).
Proof.
  intros Hid Hno. unfold update_by_id, delete_by_id. rewrite Hid.
  rewrite (update_one_none _ _ _ Hno), (delete_one_none _ _ Hno), coll_put_get.
  split; reflexivity.
Qed.

Lemma absent_id_reports_true_witness :
  update_customer id24 (Some (Up two_customers)) "cccccccccccccccccccccccc"
                  ann_payload
  = (Body true, Some (Up two_customers)).
Proof.
  apply (absent_id_reports_true id24 CCustomer two_customers
           "cccccccccccccccccccccccc" "cccccccccccccccccccccccc"
           (customer_dump ann_payload)).
  - reflexivity.
  - intros d Hd. simpl in Hd.
    repeat (destruct Hd as [<- | Hd]; [reflexivity|]). contradiction.
Defined.

(** An update by the id of a document: the first document of that id,
    and no other, gets the fields of the payload; the fields the payload
    does not name, the [_id] among them, stay; the other documents and
    the other collections are as they were. *)
Theorem update_sets_the_fields
        (object_id : string -> option string) (c : collection) (s : Store)
        (id h : string) (fields : document)
        (before after : list document) (d : document) :
  object_id id = Some h ->
  coll_get c s = before ++ d :: after ->
  (forall x, In x before -> has_id h x = false) ->
  has_id h d = true ->
  exists s',
    update_by_id object_id c (Some (Up s)) id fields = (Body true, Some (Up s')) /\
    coll_get c s' = before ++ set_fields fields d :: after /\
    (forall c', c' <> c -> coll_get c' s' = coll_get c' s) /\
    (NoDup (doc_keys fields) ->
     forall k v, In (k, v) fields ->
                 doc_get (set_fields fields d) k = Some v) /\
    (forall k, ~ In k (doc_keys fields) ->
               doc_get (set_fields fields d) k = doc_get d k) /\
    (~ In "_id" (doc_keys fields) -> has_id h (set_fields fields d) = true).
Proof.
  intros Hid Hc Hb Hd. eexists. split.
  - unfold update_by_id. rewrite Hid, Hc, (update_one_first _ _ _ _ _ Hb Hd).
    reflexivity.
  - split; [apply coll_get_put|].
    split; [intros c' Hc'; now apply coll_get_put_other|].
    split; [intros Hnd k v; now apply set_fields_in|].
    split; [intros k; apply set_fields_other|].
    intros Hn. unfold has_id in *. now rewrite (set_fields_other _ _ _ Hn).
Qed.

Lemma update_sets_the_fields_witness :
  exists s',
    update_customer id24 (Some (Up two_customers)) "bbbbbbbbbbbbbbbbbbbbbbbb"
                    ann_payload
    = (Body true, Some (Up s')) /\
    customers s'
    = [ann_doc; set_fields (customer_dump ann_payload) ben_doc].
Proof.
  destruct (update_sets_the_fields id24 CCustomer two_customers
              "bbbbbbbbbbbbbbbbbbbbbbbb" "bbbbbbbbbbbbbbbbbbbbbbbb"
              (customer_dump ann_payload) [ann_doc] [] ben_doc)
    as [s' [H1 [H2 _]]].
  - reflexivity.
  - reflexivity.
  - intros x [<- | []]. reflexivity.
  - reflexivity.
  - exists s'. split; [exact H1 | exact H2].
Defined.

(** The payloads of the three schemas name each field once and never
    name [_id]: an update through them keeps the id of the document. *)
Lemma dumps_keep_id (cu : Customer) (pr : Product) (o : Order) :
  (NoDup (doc_keys (customer_dump cu)) /\ ~ In "_id" (doc_keys (customer_dump cu))) /\
  (NoDup (doc_keys (product_dump pr)) /\ ~ In "_id" (doc_keys (product_dump pr))) /\
  (NoDup (doc_keys (order_dump o)) /\ ~ In "_id" (doc_keys (order_dump o))).
Proof.
  repeat split;
    try (simpl; intros H; repeat (destruct H as [H | H]; [discriminate|]);
         contradiction);
    simpl; repeat constructor; simpl; intros H;
    repeat (destruct H as [H | H]; [discriminate|]); contradiction.
Qed.

(** A delete by the id of a document takes out the first document of
    that id and nothing else; when no later document has the id, a
    second delete of the same id answers [True] again and changes
    nothing. *)
Theorem delete_takes_one
        (object_id : string -> option string) (c : collection) (s : Store)
        (id h : string) (before after : list document) (d : document) :
  object_id id = Some h ->
  coll_get c s = before ++ d :: after ->
  (forall x, In x before -> has_id h x = false) ->
  has_id h d = true ->
  exists s',
    delete_by_id object_id c (Some (Up s)) id = (Body true, Some (Up s')) /\
    coll_get c s' = before ++ after /\
    (forall c', c' <> c -> coll_get c' s' = coll_get c' s) /\
    ((forall x, In x after -> has_id h x = false) ->
     delete_by_id object_id c (Some (Up s')) id = (Body true, Some (Up s'))).
Proof.
  intros Hid Hc Hb Hd. eexists. split.
  - unfold delete_by_id. rewrite Hid, Hc, (delete_one_first _ _ _ _ Hb Hd).
    reflexivity.
  - split; [apply coll_get_put|].
    split; [intros c' Hc'; now apply coll_get_put_other|].
    intros Ha. unfold delete_by_id. rewrite Hid, coll_get_put.
    rewrite delete_one_none.
    + now rewrite <- (coll_get_put c (before ++ after) s) at 1;
        rewrite coll_put_get.
    + intros x Hx. apply in_app_or in Hx as [Hx | Hx]; auto.
Qed.

Lemma delete_takes_one_witness :
  exists s',
    delete_customer id24 (Some (Up two_customers)) "aaaaaaaaaaaaaaaaaaaaaaaa"
    = (Body true, Some (Up s')) /\
    customers s' = [ben_doc].
Proof.
  destruct (delete_takes_one id24 CCustomer two_customers
              "aaaaaaaaaaaaaaaaaaaaaaaa" "aaaaaaaaaaaaaaaaaaaaaaaa"
              [] [ben_doc] ann_doc)
    as [s' [H1 [H2 _]]].
  - reflexivity.
  - reflexivity.
  - intros x [].
  - reflexivity.
  - exists s'. split; [exact H1 | exact H2].
Defined.

(** [update_customer] on the id of a stored customer writes all six
    fields of the schema: a field the payload leaves out ([phone],
    [company], [address] at [None]) is written as null over whatever the
    document held; the [_id] and the fields outside the schema stay. *)
Theorem update_customer_writes_all_fields
        (object_id : string -> option string) (s : Store) (id h : string)
        (payload : Customer) (before after : list document) (d : document) :
  object_id id = Some h ->
  customers s = before ++ d :: after ->
  (forall x, In x before -> has_id h x = false) ->
  has_id h d = true ->
  exists d',
    update_customer object_id (Some (Up s)) id payload
    = (Body true,
       Some (Up (mkStore (users s) (before ++ d' :: after) (products s)
                         (order_docs s)))) /\
    has_id h d' = true /\
    doc_get d' "name" = Some (VStr (cust_name payload)) /\
    doc_get d' "email" = Some (VStr (cust_email payload)) /\
    doc_get d' "phone" = Some (opt_str (cust_phone payload)) /\
    doc_get d' "company" = Some (opt_str (cust_company payload)) /\
    doc_get d' "address" = Some (opt_str (cust_address payload)) /\
    doc_get d' "status" = Some (VStr (cust_status payload)) /\
    (cust_phone payload = None -> doc_get d' "phone" = Some VNone) /\
    (forall k, ~ In k ["name"; "email"; "phone"; "company"; "address"; "status"] ->
               doc_get d' k = doc_get d k).
Proof.
  intros Hid Hc Hb Hd. exists (set_fields (customer_dump payload) d).
  destruct (dumps_keep_id payload (mkProduct "" None 0 "" true)
                          (mkOrder "" "" [] "" (at_day 1 1 1)))
    as [[Hnd Hno] _].
  assert (Hin : forall k v, In (k, v) (customer_dump payload) ->
                            doc_get (set_fields (customer_dump payload) d) k
                            = Some v)
    by (intros k v; now apply set_fields_in).
  split.
  - unfold update_customer, update_by_id. rewrite Hid. simpl coll_get.
    rewrite Hc, (update_one_first _ _ _ _ _ Hb Hd). reflexivity.
  - split.
    { unfold has_id in *. now rewrite (set_fields_other _ _ _ Hno). }
    repeat split; try (apply Hin; simpl; tauto).
    + intros Hp. rewrite (Hin "phone" (opt_str (cust_phone payload)))
        by (simpl; tauto). now rewrite Hp.
    + intros k Hk. now apply set_fields_other.
Qed.

Lemma update_customer_writes_all_fields_witness :
  exists d',
    update_customer id24 (Some (Up two_customers)) "aaaaaaaaaaaaaaaaaaaaaaaa"
                    ann_payload
    = (Body true, Some (Up (mkStore [] [d'; ben_doc] [] []))) /\
    doc_get d' "phone" = Some VNone /\
    doc_get d' "tier" = Some (VInt 2).
Proof.
  destruct (update_customer_writes_all_fields id24 two_customers
              "aaaaaaaaaaaaaaaaaaaaaaaa" "aaaaaaaaaaaaaaaaaaaaaaaa"
              ann_payload [] [ben_doc] ann_doc)
    as [d' [H1 [_ [_ [_ [_ [_ [_ [_ [H2 H3]]]]]]]]]].
  - reflexivity.
  - reflexivity.
  - intros x [].
  - reflexivity.
  - exists d'. split; [exact H1|]. split; [now apply H2|].
    rewrite H3; [reflexivity|].
    simpl. intros H. repeat (destruct H as [H | H]; [discriminate|]).
    contradiction.
Defined.

(** The lower bound admits an order at any time of its day; the upper
    bound admits it only at midnight. *)
Lemma start_date_of_order_day_witness :
  exists f,
    build_filter (Some (dateToString (order_date morning_order))) None None
    = Ok f /\
    matches f morning_order = true.
Proof. apply (start_date_of_order_day morning_order). reflexivity. Defined.

Lemma end_date_of_order_day_witness :
  exists f,
    build_filter None (Some (dateToString (order_date morning_order))) None
    = Ok f /\
    matches f morning_order = false.
Proof.
  destruct (end_date_of_order_day morning_order) as [f [H1 H2]];
    [reflexivity|].
  exists f. split; [exact H1|].
  apply not_true_is_false. intros Hm. apply H2 in Hm.
  destruct Hm as [Hh _]. discriminate.
Defined.

(* ------------------------------------------------------------------ *)
(** * [test_database] *)

Lemma substring_length_le (n : nat) (s : string) :
  (String.length (substring 0 n s) <= n)%nat.
Proof.
  revert s. induction n as [|n IH]; intros [|c s]; simpl; try lia.
  specialize (IH s). lia.
Qed.

(** The report lists at most ten collections, the first ten the store
    names; when the store cannot list them the report still says
    "Connected", lists none and quotes at most 80 characters of the
    error; the status is "Connected" exactly when there is a handle. *)
Theorem test_database_report (db : option Probe) (database_url : option string) :
  let r := test_database db database_url in
  (List.length (t_collections r) <= 10)%nat /\
  (forall p names, db = Some p -> probe_collections p = inl names ->
                   t_collections r = firstn 10 names /\
                   exists rest, names = t_collections r ++ rest) /\
  (forall p msg, db = Some p -> probe_collections p = inr msg ->
                 t_collections r = [] /\
                 t_connection_status r = "Connected" /\
                 exists quoted,
                   t_database r = ("⚠️ Connected but Error: " ++ quoted)%string /\
                   (String.length quoted <= 80)%nat) /\
  (t_connection_status r = "Connected" <-> db <> None).
Proof.
  intros r. subst r. split; [|split; [|split]].
  - destruct db as [p|]; [|simpl; lia]. unfold test_database.
    destruct (probe_collections p); cbn [t_collections];
      [apply firstn_le_length | simpl; lia].
  - intros p names -> Hn. unfold test_database. rewrite Hn.
    cbn [t_collections]. split; [reflexivity|].
    exists (skipn 10 names). symmetry. apply firstn_skipn.
  - intros p msg -> Hm. unfold test_database. rewrite Hm.
    cbn [t_collections t_connection_status t_database].
    split; [reflexivity|]. split; [reflexivity|].
    exists (substring 0 80 msg). split; [reflexivity|].
    apply substring_length_le.
  - destruct db as [p|]; unfold test_database.
    + destruct (probe_collections p); cbn [t_connection_status];
        split; congruence.
    + cbn [t_connection_status]. split; [discriminate | congruence].
Qed.

(* ------------------------------------------------------------------ *)
(** * The amounts, by the order of the additions

    The statements of this part say which terms are added and in which
    order; they use no law of arithmetic, so they read the same whether
    [+] adds rationals or doubles. *)

(** ** The two running maps *)

Lemma accumulate_running key (rows : list Row) (m : Py.dict) (k : string) :
  Py.get (accumulate key rows m) k 0
  = fold_left Qplus
              (map r_sales (filter (fun r => String.eqb k (key r)) rows))
              (Py.get m k 0).
Proof.
  revert m. induction rows as [|r rows IH]; intros m; simpl; [reflexivity|].
  rewrite IH, get_set.
  destruct (String.eqb k (key r)) eqn:E; simpl; [|reflexivity].
  apply String.eqb_eq in E. now subst k.
Qed.

(** The value under a key is the running sum of the sales of the rows
    of that key, in the order of the rows. *)
Lemma cat_map_entry (rows : list Row) (k : string) (v : Q) :
  In (k, v) (cat_map rows) ->
  v = running_sum (map r_sales (rows_of_category k rows)).
Proof.
  intros H. rewrite <- (get_In _ k v 0 (cat_map_NoDup rows) H).
  rewrite cat_map_accumulate. apply accumulate_running.
Qed.

Lemma trend_map_entry (rows : list Row) (d : string) (v : Q) :
  In (d, v) (trend_map rows) ->
  v = running_sum (map r_sales (rows_of_day d rows)).
Proof.
  intros H. rewrite <- (get_In _ d v 0 (trend_map_NoDup rows) H).
  rewrite trend_map_accumulate. apply accumulate_running.
Qed.

Lemma accumulate_single key (k : string) (rows : list Row) (v0 : Q) :
  (forall r, In r rows -> key r = k) ->
  accumulate key rows [(k, v0)] = [(k, fold_left Qplus (map r_sales rows) v0)].
Proof.
  revert v0. induction rows as [|r rows IH]; intros v0 H; simpl; [reflexivity|].
  rewrite (H r (or_introl eq_refl)). simpl. rewrite String.eqb_refl.
  apply IH. intros r' Hr'. apply H. now right.
Qed.

(** Rows of one category make a map of one entry: their running sum. *)
Lemma cat_map_single (k : string) (rows : list Row) :
  rows <> [] ->
  (forall r, In r rows -> row_cat r = k) ->
  cat_map rows = [(k, running_sum (map r_sales rows))].
Proof.
  intros Hne H. destruct rows as [|r rows]; [congruence|].
  rewrite cat_map_accumulate. simpl. rewrite (H r (or_introl eq_refl)).
  apply accumulate_single. intros r' Hr'. apply H. now right.
Qed.

(** ** Splitting the rows by key *)

Lemma Permutation_partition {A : Type} (p : A -> bool) (l : list A) :
  Permutation (filter p l ++ filter (fun x => negb (p x)) l) l.
Proof.
  induction l as [|x l IH]; simpl; [constructor|].
  destruct (p x); simpl.
  - now constructor.
  - apply Permutation_sym. eapply perm_trans.
    + apply perm_skip, Permutation_sym, IH.
    + apply Permutation_middle.
Qed.

Lemma filter_other_key {A : Type} (key : A -> string) (k k' : string)
      (l : list A) :
  k' <> k ->
  filter (fun x => String.eqb k' (key x))
         (filter (fun x => negb (String.eqb k (key x))) l)
  = filter (fun x => String.eqb k' (key x)) l.
Proof.
  intros Hk. induction l as [|x l IH]; simpl; [reflexivity|].
  destruct (String.eqb k (key x)) eqn:E; simpl.
  - apply String.eqb_eq in E.
    destruct (String.eqb k' (key x)) eqn:E'; [|exact IH].
    apply String.eqb_eq in E'. congruence.
  - now rewrite IH.
Qed.

Lemma flat_map_other_keys {A : Type} (key : A -> string) (k : string)
      (ks : list string) (l : list A) :
  ~ In k ks ->
  flat_map (fun k' => filter (fun x => String.eqb k' (key x)) l) ks
  = flat_map (fun k' => filter (fun x => String.eqb k' (key x))
                               (filter (fun x => negb (String.eqb k (key x))) l))
             ks.
Proof.
  induction ks as [|k' ks IH]; simpl; intros Hk; [reflexivity|].
  rewrite IH by (intros H; apply Hk; now right).
  f_equal. symmetry. apply filter_other_key.
  intros E. apply Hk. now left.
Qed.

(** The lists of the elements of each key, put one after the other, are
    the list itself rearranged: every element is under one key and one
    only. *)
Lemma split_by_keys {A : Type} (key : A -> string) (keys : list string)
      (l : list A) :
  NoDup keys ->
  (forall x, In x l -> In (key x) keys) ->
  Permutation
    (flat_map (fun k => filter (fun x => String.eqb k (key x)) l) keys) l.
Proof.
  intros Hnd. revert l.
  induction Hnd as [|k ks Hk Hks IH]; intros l Hin; simpl.
  - destruct l as [|x l]; [constructor|].
    exfalso. apply (Hin x). now left.
  - eapply perm_trans; [|apply (Permutation_partition
                                  (fun x => String.eqb k (key x)))].
    apply Permutation_app_head.
    set (l' := filter (fun x => negb (String.eqb k (key x))) l).
    assert (Hext := flat_map_other_keys key k ks l Hk). fold l' in Hext.
    rewrite Hext. apply IH.
    intros x Hx. unfold l' in Hx. apply filter_In in Hx as [Hx Hne].
    destruct (Hin x Hx) as [E | Hin']; [|exact Hin'].
    rewrite E, String.eqb_refl in Hne. discriminate.
Qed.

Lemma split_by_category (rows : list Row) :
  Permutation
    (flat_map (fun k => rows_of_category k rows) (Py.keys (cat_map rows))) rows.
Proof.
  apply split_by_keys; [apply cat_map_NoDup|].
  intros r Hr. rewrite cat_map_accumulate. apply accumulate_keys.
  right. now exists r.
Qed.

Lemma split_by_day (rows : list Row) :
  Permutation
    (flat_map (fun d => rows_of_day d rows) (Py.keys (trend_map rows))) rows.
Proof.
  apply split_by_keys; [apply trend_map_NoDup|].
  intros r Hr. rewrite trend_map_accumulate. apply accumulate_keys.
  right. now exists r.
Qed.

(** ** The sum of a group *)

Lemma opt_eqb_refl (c : option string) : opt_eqb c c = true.
Proof. destruct c; simpl; [apply String.eqb_refl | reflexivity]. Qed.

Lemma opt_eqb_sym (a b : option string) : opt_eqb a b = opt_eqb b a.
Proof. destruct a, b; simpl; try reflexivity. apply String.eqb_sym. Qed.

Lemma same_group_self (r : Row) : same_group (r_day r) (r_category r) r = true.
Proof. unfold same_group. now rewrite String.eqb_refl, opt_eqb_refl. Qed.

Lemma same_group_sym (a b : Row) :
  same_group (r_day a) (r_category a) b = same_group (r_day b) (r_category b) a.
Proof. unfold same_group. now rewrite String.eqb_sym, opt_eqb_sym. Qed.

Lemma same_group_keys (d c : string * option string) (a b : Row) :
  r_day a = r_day b -> r_category a = r_category b ->
  same_group (fst d) (snd d) a = same_group (fst d) (snd d) b.
Proof. unfold same_group. now intros -> ->. Qed.

Lemma sales_at_group_add d c d' c' t i (rows : list Row) :
  sales_at d c (group_add d' c' t i rows)
  = if String.eqb d d' && opt_eqb c c'
    then (sales_at d c rows + t)%Q else sales_at d c rows.
Proof.
  unfold sales_at. induction rows as [|r rows IH]; simpl.
  - unfold same_group. simpl. now destruct (String.eqb d d' && opt_eqb c c').
  - destruct (same_group d' c' r) eqn:E'; simpl.
    + apply same_group_eq in E' as [Hd Hc].
      unfold same_group at 1. simpl. fold (same_group d c r).
      destruct (same_group d c r) eqn:E.
      * apply same_group_eq in E as [Hd0 Hc0].
        rewrite <- Hd, <- Hc, Hd0, Hc0, String.eqb_refl, opt_eqb_refl.
        reflexivity.
      * destruct (String.eqb d d' && opt_eqb c c') eqn:K; [|reflexivity].
        exfalso. apply andb_true_iff in K as [K1 K2].
        apply String.eqb_eq in K1. apply opt_eqb_eq in K2. subst d' c'.
        unfold same_group in E. rewrite Hd, Hc in E.
        rewrite String.eqb_refl, opt_eqb_refl in E. discriminate.
    + destruct (same_group d c r) eqn:E.
      * destruct (String.eqb d d' && opt_eqb c c') eqn:K; [|reflexivity].
        exfalso. apply andb_true_iff in K as [K1 K2].
        apply String.eqb_eq in K1. apply opt_eqb_eq in K2. subst d' c'.
        congruence.
      * exact IH.
Qed.

Lemma sales_at_group_from d c (docs : list (Order * OrderItem)) (rows : list Row) :
  sales_at d c (group_from docs rows)
  = fold_left Qplus (map doc_total (filter (in_group d c) docs))
              (sales_at d c rows).
Proof.
  revert rows. induction docs as [|x docs IH]; intros rows; [reflexivity|].
  unfold group_from in *. simpl. rewrite IH, sales_at_group_add.
  unfold in_group at 2. now destruct (String.eqb d (doc_day x) && opt_eqb c (doc_cat x)).
Qed.

Lemma group_add_distinct d c t i (rows : list Row) :
  distinct_groups rows -> distinct_groups (group_add d c t i rows).
Proof.
  unfold distinct_groups.
  induction 1 as [|r rows Hr Hrows IH]; simpl.
  - repeat constructor.
  - destruct (same_group d c r) eqn:E.
    + constructor; [exact Hr | exact Hrows].
    + constructor; [|exact IH].
      rewrite Forall_forall in *. intros x Hx.
      apply group_add_keys in Hx as [[Hd Hc] | [r0 [H0 [Hd Hc]]]].
      * rewrite same_group_sym, Hd, Hc. exact E.
      * rewrite <- (Hr r0 H0). unfold same_group. now rewrite Hd, Hc.
Qed.

Lemma group_from_distinct (docs : list (Order * OrderItem)) (rows : list Row) :
  distinct_groups rows -> distinct_groups (group_from docs rows).
Proof.
  revert rows. induction docs as [|x docs IH]; intros rows H; [exact H|].
  unfold group_from in *. simpl. apply IH. now apply group_add_distinct.
Qed.

Lemma sales_at_In (rows : list Row) (r : Row) :
  distinct_groups rows -> In r rows ->
  sales_at (r_day r) (r_category r) rows = r_sales r.
Proof.
  unfold distinct_groups, sales_at.
  induction 1 as [|a rows Ha Hrows IH]; simpl; [contradiction|].
  intros [-> | Hin].
  - now rewrite same_group_self.
  - rewrite Forall_forall in Ha.
    rewrite same_group_sym, (Ha r Hin). now apply IH.
Qed.

(** The sales of a row are the running sum of quantity times price over
    the selected line items of its day and category, in the order of
    the collection. *)
Lemma pipeline_row_sales (f : Filter) (orders : list Order) (r : Row) :
  In r (pipeline f orders) ->
  r_sales r = group_sales f orders (r_day r) (r_category r).
Proof.
  intros Hr. unfold pipeline in Hr. fold (selected_lines f orders) in Hr.
  rewrite stage_group_from in Hr.
  rewrite <- (sales_at_In _ r (group_from_distinct _ [] (FOP_nil _)) Hr).
  apply sales_at_group_from.
Qed.

(** ** Rows or no rows *)

Lemma pipeline_has_rows (f : Filter) (orders : list Order) :
  (exists o, In o orders /\ matches f o = true /\ items o <> []) ->
  pipeline f orders <> [].
Proof.
  intros [o [Ho [Hm Hne]]].
  destruct (items o) as [|it its] eqn:E; [congruence|].
  assert (Hx : In (o, it) (selected_lines f orders)).
  { apply selected_lines_In. rewrite E. simpl. auto. }
  destruct (group_from_has_key _ [] _ Hx) as [r [Hr _]].
  unfold pipeline. fold (selected_lines f orders). rewrite stage_group_from.
  intros Hnil. rewrite Hnil in Hr. contradiction.
Qed.

Lemma pipeline_has_no_rows (f : Filter) (orders : list Order) :
  (forall o, In o orders -> matches f o = true -> items o = []) ->
  pipeline f orders = [].
Proof.
  intros H. unfold pipeline.
  replace (stage_unwind (stage_match f orders)) with (@nil (Order * OrderItem));
    [reflexivity|].
  symmetry. unfold stage_unwind, stage_match.
  induction orders as [|o orders IH]; [reflexivity|].
  simpl. destruct (matches f o) eqn:E.
  - simpl. rewrite (H o (or_introl eq_refl) E). simpl.
    apply IH. intros o' Ho'. apply H. now right.
  - apply IH. intros o' Ho'. apply H. now right.
Qed.

(* ------------------------------------------------------------------ *)
(** * The category filter, the totals and the items without category *)

Lemma filter_and {A : Type} (p p0 q : A -> bool) (l : list A) :
  (forall x, p x = p0 x && q x) -> filter p l = filter p0 (filter q l).
Proof.
  intros H. induction l as [|x l IH]; [reflexivity|].
  simpl. rewrite H. destruct (q x); simpl.
  - rewrite andb_true_r. destruct (p0 x); now rewrite IH.
  - rewrite andb_false_r. exact IH.
Qed.

Lemma matches_with_category (lo hi : option datetime) (c : string) (o : Order) :
  matches (mkFilter lo hi (Some c)) o
  = matches (mkFilter lo hi None) o && existsb (item_has_category c) (items o).
Proof. unfold matches. simpl. now rewrite andb_true_r. Qed.

Lemma stage_match_with_category (lo hi : option datetime) (c : string)
      (orders : list Order) :
  stage_match (mkFilter lo hi (Some c)) orders
  = stage_match (mkFilter lo hi None) (with_category c orders).
Proof.
  unfold stage_match, with_category. apply filter_and.
  intros o. apply matches_with_category.
Qed.

(** C1, amended: the category filter selects orders, not line items.  An
    order qualifies when it passes the date bounds and one of its items
    has the category.  The rows, and so the summary, are those the
    pipeline gives without category filter on the orders that have an
    item of the category: every line item of a qualifying order, of
    whatever category, enters [$group], has its category name in the
    category map and its day in the day map, and is summed in the row of
    its own day and category; the orders counted are the qualifying
    ones; an order without an item of the category leaves the rows,
    hence the sums and the count, as they are without it. *)
Theorem C1_category_filter_selects_orders
        (lo hi : option datetime) (c : string) (orders : list Order) :
  let f := mkFilter lo hi (Some c) in
  let f0 := mkFilter lo hi None in
  (forall o, matches f o
             = matches f0 o && existsb (item_has_category c) (items o)) /\
  pipeline f orders = pipeline f0 (with_category c orders) /\
  summarize (pipeline f orders)
  = summarize (pipeline f0 (with_category c orders)) /\
  (forall o it, In (o, it) (selected_lines f orders)
                <-> In o orders /\ matches f o = true /\ In it (items o)) /\
  (forall o it, In o orders -> matches f o = true -> In it (items o) ->
     In (cat_name (category it)) (Py.keys (cat_map (pipeline f orders))) /\
     In (dateToString (order_date o)) (Py.keys (trend_map (pipeline f orders)))) /\
  (forall r, In r (pipeline f orders) ->
             r_sales r = group_sales f orders (r_day r) (r_category r)) /\
  (forall x,
      In x (rows_order_ids (pipeline f orders))
      <-> exists o, In o orders /\ matches f o = true /\ oid o = x) /\
  (forall o before after,
      existsb (item_has_category c) (items o) = false ->
      pipeline f (before ++ o :: after) = pipeline f (before ++ after)).
Proof.
  intros f f0.
  assert (Hp : pipeline f orders = pipeline f0 (with_category c orders)).
  { unfold pipeline, f, f0. now rewrite stage_match_with_category. }
  split.
  { intros o. unfold matches, f, f0. simpl. now rewrite andb_true_r. }
  split; [exact Hp|].
  split; [now rewrite Hp|].
  split; [intros o it; apply selected_lines_In|].
  split.
  { intros o it Ho Hm Hit.
    assert (Hx : In (o, it) (selected_lines f orders))
      by (apply selected_lines_In; auto).
    split.
    - apply pipeline_category_keys. now exists (o, it).
    - apply pipeline_day_keys. now exists (o, it). }
  split; [intros r; apply pipeline_row_sales|].
  split.
  { intros x. rewrite pipeline_order_ids. split.
    - intros [o [H1 [H2 [_ H3]]]]. exists o. auto.
    - intros [o [H1 [H2 H3]]]. exists o. repeat split; try assumption.
      intros Hnil. unfold matches, f in H2. simpl in H2.
      rewrite Hnil in H2. simpl in H2.
      rewrite andb_false_r in H2. discriminate. }
  intros o before after H. apply pipeline_skips_unmatched.
  unfold matches, f. simpl. rewrite H. apply andb_false_r.
Qed.

(** C3, amended: [total_sales] and the entries of the breakdown and of
    the trend are sums of the same rows, rounded apart.  [total_sales] is
    the sum of the sales of all rows, rounded once.  The breakdown lists
    the entries of the category map and the trend those of the day map,
    each rounded on its own; the value of an entry is the running sum of
    the sales of the rows of its category, or of its day, in the order
    of the rows; and the rows of the categories, like the rows of the
    days, are all the rows, each once.  No equality of [total_sales]
    with the sum of the rounded entries follows. *)
Theorem C3_same_rows_rounded_apart (f : Filter) (orders : list Order) :
  exists resp,
    summarize (pipeline f orders) = Ok resp /\
    total_sales resp = Py.round2 (Py.sum (map r_sales (pipeline f orders))) /\
    Permutation (category_breakdown (pipeline f orders))
                (category_entries (pipeline f orders)) /\
    Permutation (trend resp) (trend_entries (pipeline f orders)) /\
    (forall k v, In (k, v) (cat_map (pipeline f orders)) ->
       v = running_sum (map r_sales (rows_of_category k (pipeline f orders)))) /\
    (forall d v, In (d, v) (trend_map (pipeline f orders)) ->
       v = running_sum (map r_sales (rows_of_day d (pipeline f orders)))) /\
    Permutation
      (flat_map (fun k => rows_of_category k (pipeline f orders))
                (Py.keys (cat_map (pipeline f orders))))
      (pipeline f orders) /\
    Permutation
      (flat_map (fun d => rows_of_day d (pipeline f orders))
                (Py.keys (trend_map (pipeline f orders))))
      (pipeline f orders).
Proof.
  eexists. split; [apply summarize_ok|]. cbn [total_sales trend].
  split; [reflexivity|].
  split; [apply category_breakdown_perm|].
  split; [apply trend_of_perm|].
  split; [intros k v; apply cat_map_entry|].
  split; [intros d v; apply trend_map_entry|].
  split; [apply split_by_category | apply split_by_day].
Qed.

Lemma schema_rows_none (f : Filter) (orders : list Order) :
  (forall o it, In o orders -> In it (items o) -> schema_item it) ->
  forall r, In r (pipeline f orders) -> r_category r = None.
Proof.
  intros Hs r Hr. unfold pipeline in Hr. rewrite stage_group_from in Hr.
  apply group_from_keys in Hr as [[[o it] [Hd [_ Hc]]] | [r0 [[] _]]].
  fold (selected_lines f orders) in Hd.
  apply selected_lines_In in Hd as [Ho [_ Hit]].
  rewrite Hc. unfold doc_cat. simpl. apply (Hs o it Ho Hit).
Qed.

(** C9: in a collection whose items are all [OrderItem]s (no category),
    every row is filed under "Unknown".  When an order that passes the
    filter has a line item, [top_categories] is the single entry
    "Unknown", whose sales are the running sum of the sales of all the
    rows, rounded, each row being the sum of quantity times price over
    the selected line items of its day; when no such order has a line
    item, [top_categories] is empty.  With a category filter that is not
    the empty string no order matches and the summary is the empty
    one. *)
Theorem C9_schema_items_are_unknown
        (orders : list Order) (start_date end_date category : option string)
        (f : Filter) :
  (forall o it, In o orders -> In it (items o) -> schema_item it) ->
  build_filter start_date end_date category = Ok f ->
  exists resp,
    analytics_overview (Some (Connected orders)) start_date end_date category
    = Ok resp /\
    (forall r, In r (pipeline f orders) ->
               row_cat r = "Unknown" /\
               r_sales r = group_sales f orders (r_day r) None) /\
    ((exists o, In o orders /\ matches f o = true /\ items o <> []) ->
     top_categories resp
     = [mkCategorySales "Unknown"
          (Py.round2 (running_sum (map r_sales (pipeline f orders))))]) /\
    ((forall o, In o orders -> matches f o = true -> items o = []) ->
     top_categories resp = []) /\
    (Py.truthy category = true ->
     stage_match f orders = [] /\ resp = empty_summary).
Proof.
  intros Hs Hf. rewrite (overview_connected _ _ _ _ f Hf).
  eexists. split; [apply summarize_ok|]. cbn [top_categories].
  split; [|split; [|split]].
  - intros r Hr. split; [now apply (schema_rows f orders Hs)|].
    rewrite (pipeline_row_sales f orders r Hr). f_equal.
    now apply (schema_rows_none f orders Hs).
  - intros Hex. apply pipeline_has_rows in Hex.
    unfold category_breakdown.
    rewrite (cat_map_single "Unknown" (pipeline f orders) Hex
                            (schema_rows f orders Hs)).
    reflexivity.
  - intros Hno. rewrite (pipeline_has_no_rows f orders Hno). reflexivity.
  - intros Ht. apply build_filter_category in Hf. rewrite Ht in Hf.
    destruct category as [c|]; [|discriminate].
    assert (Hm : stage_match f orders = [])
      by (now apply (schema_orders_unmatched f c)).
    split; [exact Hm|].
    rewrite (pipeline_none_matched f orders Hm). reflexivity.
Qed.

(** The three schema orders, asked without filter and asked for
    category A. *)
Lemma C9_schema_items_are_unknown_witness :
  (exists resp,
      analytics_overview (Some (Connected schema_orders)) None None None
      = Ok resp /\
      top_categories resp = [mkCategorySales "Unknown" 180]) /\
  (exists resp,
      analytics_overview (Some (Connected schema_orders)) None None (Some "A")
      = Ok resp /\
      resp = empty_summary).
Proof.
  assert (Hs : forall o it, In o schema_orders -> In it (items o) ->
                            schema_item it).
  { intros o it Ho Hit. simpl in Ho.
    repeat (destruct Ho as [<- | Ho];
            [simpl in Hit; intuition (subst; reflexivity)|]).
    contradiction. }
  split.
  - destruct (C9_schema_items_are_unknown schema_orders None None None
                (mkFilter None None None) Hs eq_refl)
      as [resp [H1 [_ [H2 _]]]].
    exists resp. split; [exact H1|]. rewrite H2; [reflexivity|].
    eexists. split; [left; reflexivity|]. split; [reflexivity | discriminate].
  - destruct (C9_schema_items_are_unknown schema_orders None None (Some "A")
                (mkFilter None None (Some "A")) Hs eq_refl)
      as [resp [H1 [_ [_ [_ H2]]]]].
    exists resp. split; [exact H1|]. now apply H2.
Defined.

(* ------------------------------------------------------------------ *)
(** * The entries of the trend and of the breakdown *)

(** The trend has one point for each day on which a selected order has a
    line item, and no other.  The value of a point is the running sum,
    rounded to two decimals, of the sales of the rows of its day, in the
    order of the rows; the sales of a row are the running sum of
    quantity times price over the selected line items of its day and
    category. *)
Theorem trend_point_per_day (f : Filter) (orders : list Order) :
  exists resp,
    summarize (pipeline f orders) = Ok resp /\
    NoDup (map tp_date (trend resp)) /\
    (forall d, In d (map tp_date (trend resp))
               <-> exists o it, In o orders /\ matches f o = true /\
                                In it (items o) /\
                                dateToString (order_date o) = d) /\
    (forall p, In p (trend resp) ->
               tp_sales p
               = Py.round2 (running_sum
                              (map r_sales
                                   (rows_of_day (tp_date p) (pipeline f orders))))) /\
    (forall r, In r (pipeline f orders) ->
               r_sales r = group_sales f orders (r_day r) (r_category r)).
Proof.
  eexists. split; [apply summarize_ok|]. cbn [trend].
  assert (Hperm : Permutation (map fst (Py.sorted Py.item_lt
                                         (trend_map (pipeline f orders))))
                              (Py.keys (trend_map (pipeline f orders))))
    by apply Permutation_map, sorted_perm.
  split; [|split; [|split]].
  - rewrite trend_of_dates.
    apply (Permutation_NoDup (Permutation_sym Hperm)), trend_map_NoDup.
  - intros d. rewrite trend_of_dates.
    assert (Hd : In d (map fst (Py.sorted Py.item_lt
                                (trend_map (pipeline f orders))))
                 <-> In d (Py.keys (trend_map (pipeline f orders)))).
    { split; apply Permutation_in;
        [exact Hperm | exact (Permutation_sym Hperm)]. }
    rewrite Hd, pipeline_day_keys. split.
    + intros [[o it] [Hx Hday]]. apply selected_lines_In in Hx.
      exists o, it. tauto.
    + intros [o [it [Ho [Hm [Hit Hday]]]]]. exists (o, it).
      split; [apply selected_lines_In; auto | exact Hday].
  - intros p Hp. unfold trend_of in Hp.
    apply in_map_iff in Hp as [[d v] [<- Hin]]. simpl.
    apply sorted_In in Hin. f_equal. now apply trend_map_entry.
  - intros r. apply pipeline_row_sales.
Qed.

(** Every entry of [top_categories] carries the running sum, rounded to
    two decimals, of the sales of the rows of its category name, in the
    order of the rows; no category appears twice; and a category name
    has an entry in the breakdown exactly when a selected line item
    bears it. *)
Theorem top_category_amounts (f : Filter) (orders : list Order) :
  exists resp,
    summarize (pipeline f orders) = Ok resp /\
    NoDup (map cs_category (top_categories resp)) /\
    (forall e, In e (top_categories resp) ->
               cs_sales e
               = Py.round2 (running_sum
                              (map r_sales
                                   (rows_of_category (cs_category e)
                                                     (pipeline f orders)))) /\
               exists o it, In o orders /\ matches f o = true /\
                            In it (items o) /\
                            cat_name (category it) = cs_category e) /\
    (forall c, In c (map cs_category (category_breakdown (pipeline f orders)))
               <-> exists o it, In o orders /\ matches f o = true /\
                                In it (items o) /\
                                cat_name (category it) = c) /\
    (forall r, In r (pipeline f orders) ->
               r_sales r = group_sales f orders (r_day r) (r_category r)).
Proof.
  eexists. split; [apply summarize_ok|]. cbn [top_categories].
  assert (Hperm : Permutation
                    (map cs_category (category_breakdown (pipeline f orders)))
                    (Py.keys (cat_map (pipeline f orders)))).
  { rewrite <- category_entries_keys.
    apply Permutation_map, category_breakdown_perm. }
  assert (Hkeys : forall c,
             In c (map cs_category (category_breakdown (pipeline f orders)))
             <-> exists o it, In o orders /\ matches f o = true /\
                              In it (items o) /\ cat_name (category it) = c).
  { intros c.
    assert (Hc : In c (map cs_category (category_breakdown (pipeline f orders)))
                 <-> In c (Py.keys (cat_map (pipeline f orders)))).
    { split; apply Permutation_in;
        [exact Hperm | exact (Permutation_sym Hperm)]. }
    rewrite Hc, pipeline_category_keys. split.
    - intros [[o it] [Hx Hcat]]. apply selected_lines_In in Hx.
      exists o, it. tauto.
    - intros [o [it [Ho [Hm [Hit Hcat]]]]]. exists (o, it).
      split; [apply selected_lines_In; auto | exact Hcat]. }
  split; [|split; [|split; [exact Hkeys|]]].
  - rewrite <- firstn_map. apply NoDup_firstn.
    apply (Permutation_NoDup (Permutation_sym Hperm)), cat_map_NoDup.
  - intros e He. apply In_firstn in He. split.
    + unfold category_breakdown in He. apply sorted_In in He.
      apply in_map_iff in He as [[c v] [<- Hin]]. simpl.
      f_equal. now apply cat_map_entry.
    + apply Hkeys. now apply in_map.
  - intros r. apply pipeline_row_sales.
Qed.

(** ** The order in which the store returns the groups *)

Lemma trend_dates_sorted (rows : list Row) :
  StronglySorted (fun a b => String.compare a b = Lt)
                 (map tp_date (trend_of rows)).
Proof. apply StronglySorted_map, trend_of_sorted. Qed.

Lemma trend_dates_In (rows : list Row) (d : string) :
  In d (map tp_date (trend_of rows)) <-> exists r, In r rows /\ r_day r = d.
Proof.
  rewrite trend_of_dates.
  assert (Hperm : Permutation (map fst (Py.sorted Py.item_lt (trend_map rows)))
                              (Py.keys (trend_map rows)))
    by apply Permutation_map, sorted_perm.
  assert (Hd : In d (map fst (Py.sorted Py.item_lt (trend_map rows)))
               <-> In d (Py.keys (trend_map rows))).
  { split; apply Permutation_in; [exact Hperm | exact (Permutation_sym Hperm)]. }
  rewrite Hd, trend_map_accumulate, accumulate_keys. simpl. tauto.
Qed.

Lemma cat_keys_In (rows : list Row) (c : string) :
  In c (Py.keys (cat_map rows)) <-> exists r, In r rows /\ row_cat r = c.
Proof. rewrite cat_map_accumulate, accumulate_keys. simpl. tauto. Qed.

(** The store does not promise an order for the groups it returns.
    [orders_count], the days of the trend and their order, the category
    names of the breakdown and the number of top categories do not
    depend on it. *)
Theorem row_order_keeps_count_and_keys (rows rows' : list Row) :
  Permutation rows rows' ->
  exists resp resp',
    summarize rows = Ok resp /\
    summarize rows' = Ok resp' /\
    orders_count resp = orders_count resp' /\
    map tp_date (trend resp) = map tp_date (trend resp') /\
    Permutation (map cs_category (category_breakdown rows))
                (map cs_category (category_breakdown rows')) /\
    List.length (top_categories resp) = List.length (top_categories resp').
Proof.
  intros H. eexists. eexists.
  split; [apply summarize_ok|]. split; [apply summarize_ok|].
  cbn [orders_count trend top_categories].
  assert (Hin : forall (g : Row -> string) k,
             (exists r, In r rows /\ g r = k)
             <-> (exists r, In r rows' /\ g r = k)).
  { intros g k. split; intros [r [Hr Hk]]; exists r; split; try exact Hk.
    - now apply (Permutation_in _ H).
    - now apply (Permutation_in _ (Permutation_sym H)). }
  assert (Hcat : Permutation (map cs_category (category_breakdown rows))
                             (map cs_category (category_breakdown rows'))).
  { eapply perm_trans;
      [apply Permutation_map, category_breakdown_perm|].
    eapply perm_trans;
      [|apply Permutation_sym, Permutation_map, category_breakdown_perm].
    rewrite !category_entries_keys.
    apply NoDup_Permutation; try apply cat_map_NoDup.
    intros c. rewrite !cat_keys_In. apply Hin. }
  split; [|split; [|split; [exact Hcat|]]].
  - unfold rows_orders_count. f_equal.
    apply Permutation_length, NoDup_Permutation; try apply NoDup_nodup.
    intros x. unfold rows_order_ids. rewrite !nodup_In.
    assert (Hf : Permutation (flat_map r_orders rows) (flat_map r_orders rows'))
      by (now apply Permutation_flat_map).
    split; apply Permutation_in; [exact Hf | exact (Permutation_sym Hf)].
  - apply (sorted_unique (fun a b => String.compare a b = Lt)).
    + intros a Ha. rewrite str_compare_refl in Ha. discriminate.
    + intros a b Hab Hba. rewrite String.compare_antisym, Hab in Hba.
      discriminate.
    + apply trend_dates_sorted.
    + apply trend_dates_sorted.
    + intros d. rewrite !trend_dates_In. apply Hin.
  - rewrite !length_firstn. f_equal.
    rewrite <- (length_map cs_category (category_breakdown rows)).
    rewrite <- (length_map cs_category (category_breakdown rows')).
    now apply Permutation_length.
Qed.

Lemma row_order_keeps_count_and_keys_witness :
  exists resp resp',
    summarize (pipeline no_filter scenario_orders) = Ok resp /\
    summarize (rev (pipeline no_filter scenario_orders)) = Ok resp' /\
    map tp_date (trend resp) = map tp_date (trend resp').
Proof.
  destruct (row_order_keeps_count_and_keys
              (pipeline no_filter scenario_orders)
              (rev (pipeline no_filter scenario_orders)))
    as [resp [resp' [H1 [H2 [_ [H3 _]]]]]].
  - apply Permutation_rev.
  - exists resp, resp'. auto.
Defined.

(* ------------------------------------------------------------------ *)
(** * Signs *)

(** A running sum of terms that are not negative is not negative. *)
Lemma fold_plus_nonneg (xs : list Q) (a : Q) :
  Forall (fun x => 0 <= x)%Q xs -> (0 <= a)%Q ->
  (0 <= fold_left Qplus xs a)%Q.
Proof.
  intros H. revert a. induction H as [|x xs Hx _ IH]; intros a Ha; simpl.
  - exact Ha.
  - apply IH. rewrite <- (Qplus_0_l 0). now apply Qplus_le_compat.
Qed.

Lemma running_sum_nonneg (xs : list Q) :
  Forall (fun x => 0 <= x)%Q xs -> (0 <= running_sum xs)%Q.
Proof. intros H. apply fold_plus_nonneg; [exact H | apply Qle_refl]. Qed.

Lemma row_sales_nonneg (f : Filter) (orders : list Order) (r : Row) :
  (forall o, In o orders -> valid_order o = true) ->
  In r (pipeline f orders) -> (0 <= r_sales r)%Q.
Proof.
  intros Hv Hr. rewrite (pipeline_row_sales f orders r Hr).
  apply running_sum_nonneg, Forall_forall.
  intros t Ht. apply in_map_iff in Ht as [[o it] [<- Hx]].
  apply filter_In in Hx as [Hx _]. apply selected_lines_In in Hx.
  destruct Hx as [Ho [_ Hit]].
  specialize (Hv o Ho). unfold valid_order in Hv.
  apply andb_true_iff in Hv as [Hv _].
  rewrite forallb_forall in Hv. apply line_total_nonneg. now apply Hv.
Qed.

Lemma rows_sales_nonneg (f : Filter) (orders : list Order)
      (p : Row -> bool) :
  (forall o, In o orders -> valid_order o = true) ->
  Forall (fun x => 0 <= x)%Q (map r_sales (filter p (pipeline f orders))).
Proof.
  intros Hv. apply Forall_forall. intros x Hx.
  apply in_map_iff in Hx as [r [<- Hr]]. apply filter_In in Hr as [Hr _].
  now apply (row_sales_nonneg f orders).
Qed.

(** On orders that [Order] and [OrderItem] accept (quantity at least 1,
    price not negative) no figure of the summary is negative. *)
Theorem summary_not_negative (f : Filter) (orders : list Order) :
  (forall o, In o orders -> valid_order o = true) ->
  exists resp,
    summarize (pipeline f orders) = Ok resp /\
    (0 <= total_sales resp)%Q /\
    0 <= orders_count resp /\
    (0 <= avg_order_value resp)%Q /\
    (forall e, In e (top_categories resp) -> 0 <= cs_sales e)%Q /\
    (forall p, In p (trend resp) -> 0 <= tp_sales p)%Q.
Proof.
  intros Hv. eexists. split; [apply summarize_ok|].
  cbn [total_sales orders_count avg_order_value top_categories trend].
  assert (Ht : (0 <= rows_total (pipeline f orders))%Q).
  { unfold rows_total, Py.sum.
    rewrite <- (filter_all (pipeline f orders)).
    apply fold_plus_nonneg; [now apply rows_sales_nonneg | apply Qle_refl]. }
  split; [now apply round2_nonneg|].
  split; [unfold rows_orders_count; lia|].
  split; [|split].
  - destruct (rows_orders_count (pipeline f orders) =? 0) eqn:E;
      [apply Qle_refl|].
    apply round2_nonneg. apply Qmult_le_0_compat; [exact Ht|].
    apply Qinv_le_0_compat. unfold rows_orders_count, Qle. simpl. lia.
  - intros e He. apply In_firstn in He.
    unfold category_breakdown in He. apply sorted_In in He.
    apply in_map_iff in He as [[c v] [<- Hin]]. simpl.
    apply round2_nonneg. rewrite (cat_map_entry _ c v Hin).
    apply running_sum_nonneg. now apply rows_sales_nonneg.
  - intros p Hp. unfold trend_of in Hp.
    apply in_map_iff in Hp as [[d v] [<- Hin]]. simpl.
    apply sorted_In in Hin. apply round2_nonneg.
    rewrite (trend_map_entry _ d v Hin).
    apply running_sum_nonneg. now apply rows_sales_nonneg.
Qed.

Lemma summary_not_negative_witness :
  exists resp,
    summarize (pipeline no_filter scenario_orders) = Ok resp /\
    (0 <= total_sales resp)%Q.
Proof.
  destruct (summary_not_negative no_filter scenario_orders)
    as [resp [H1 [H2 _]]].
  - intros o Ho. simpl in Ho.
    repeat (destruct Ho as [<- | Ho]; [reflexivity|]). contradiction.
  - exists resp. split; assumption.
Defined.